(** * Emissions calculator: the lookup engine and the emission aggregator

    A shallow embedding of [src/lookup.py], [src/emissions_calculator.py],
    [src/data_loader.py] and [scripts/calculate_emissions.py].

    Conventions of the embedding.
    - Exceptions are explicit: a computation that may raise has type
      [res A]; [try ... except] is a match on the exception raised.
    - A scalar is a string or a number.  A number is a Python [int]
      (unbounded), a Python [float], or one of the two NumPy scalars that
      pandas hands out when an element of a typed column is read:
      [numpy.int64] (64 bits, arithmetic wraps around) and
      [numpy.float64].  Floats are Rocq's primitive binary64 floats, so
      that arithmetic rounds the way the program's does; a missing cell
      is the float NaN.
    - A DataFrame is its list of column labels (strings) and its rows in
      index order; a row maps labels to the cells the table was built
      from.  The dtype of a column is the one pandas infers for its
      cells: [int64] for 64-bit integers, [float64] for numbers with a
      float among them, [object] otherwise.  What a comparison with the
      column sees, and what a row of [iterrows()] holds, follows from the
      dtypes.
    - A Python dict whose iteration order is observable (the criteria) is
      an association list in insertion order; a dict that is only read by
      key (an output row) is a [gmap]. *)

From Stdlib Require Import ZArith Floats DecimalString Ascii.
From stdpp Require Import gmap strings list fin_maps.

Set Warnings "-inexact-float".
Local Open Scope Z_scope.

(** ** Exceptions *)

Inductive exn : Set :=
  | KeyError | IndexError | TypeError | ValueError
  | AttributeError | ZeroDivisionError | OverflowError.

Inductive res (A : Type) : Type :=
  | Ok (a : A)
  | Raise (e : exn).
Arguments Ok {A} a.
Arguments Raise {A} e.

Definition bind {A B} (m : res A) (k : A -> res B) : res B :=
  match m with
  | Ok a => k a
  | Raise e => Raise e
  end.

Notation "'let!' x := m 'in' k" := (bind m (fun x => k))
  (at level 10, x name, m at level 100, k at level 200).

Fixpoint mapM {A B} (f : A -> res B) (l : list A) : res (list B) :=
  match l with
  | [] => Ok []
  | x :: l' => let! y := f x in let! ys := mapM f l' in Ok (y :: ys)
  end.

(** ** Python and NumPy scalars *)

Inductive number : Set :=
  | Int (z : Z)
  | Float (f : float)
  | Int64 (z : Z)
  | Float64 (f : float).

Inductive value : Set :=
  | Num (n : number)
  | Str (s : string).

Definition NaN : value := Num (Float nan).
Definition zero : value := Num (Int 0).

Definition is_numpy (n : number) : bool :=
  match n with
  | Int64 _ | Float64 _ => true
  | Int _ | Float _ => false
  end.

(** The integer that an [int] or a [numpy.int64] holds. *)
Definition integer (n : number) : option Z :=
  match n with
  | Int z | Int64 z => Some z
  | Float _ | Float64 _ => None
  end.

Definition fits_int64 (z : Z) : bool := (- 2 ^ 63 <=? z) && (z <? 2 ^ 63).

(** The result of an operation on 64-bit integers: NumPy warns of the
    overflow and keeps the low 64 bits. *)
Definition wrap_int64 (z : Z) : Z := (z + 2 ^ 63) mod 2 ^ 64 - 2 ^ 63.

(** The integer [z] held by [n] as an operand of an operation on 64-bit
    integers: a Python [int] that does not fit raises [OverflowError]. *)
Definition int64_of (n : number) (z : Z) : res Z :=
  if is_numpy n || fits_int64 z then Ok z else Raise OverflowError.

(** [float(z)]: round to nearest even; an infinity when the integer is
    beyond the floats. *)
Definition float_of_Z (z : Z) : float :=
  SF2Prim (binary_normalize prec emax z 0 false).

(** The number as a float operand; Python and NumPy raise
    [OverflowError] when an integer is too large for a float. *)
Definition to_float (n : number) : res float :=
  match n with
  | Float f | Float64 f => Ok f
  | Int z | Int64 z =>
      let f := float_of_Z z in
      if PrimFloat.is_infinity f then Raise OverflowError else Ok f
  end.

(** [a + b] and [a * b].  Two Python integers give a Python integer; when
    a NumPy scalar takes part the result is a NumPy scalar, an integer of
    64 bits when both operands are integers; otherwise the operands are
    taken as floats. *)
Definition num_arith (int_op : Z -> Z -> Z) (float_op : float -> float -> float)
    (a b : number) : res number :=
  match integer a, integer b with
  | Some x, Some y =>
      if is_numpy a || is_numpy b then
        let! x := int64_of a x in
        let! y := int64_of b y in
        Ok (Int64 (wrap_int64 (int_op x y)))
      else Ok (Int (int_op x y))
  | _, _ =>
      let! x := to_float a in
      let! y := to_float b in
      Ok (if is_numpy a || is_numpy b then Float64 (float_op x y) else Float (float_op x y))
  end.

Definition num_add : number -> number -> res number := num_arith Z.add PrimFloat.add.
Definition num_mul : number -> number -> res number := num_arith Z.mul PrimFloat.mul.

Definition num_is_zero (n : number) : bool :=
  match n with
  | Int z | Int64 z => z =? 0
  | Float f | Float64 f => PrimFloat.eqb f 0%float
  end.

(** The quotient of two Python integers ([b] is not 0), correctly
    rounded: the quotient of the magnitudes is taken with at least 55
    bits and one more bit that tells whether the division is exact. *)
Definition int_truediv (a b : Z) : float :=
  let n := Z.abs a in
  let d := Z.abs b in
  let k := Z.max 0 (Z.log2 d - Z.log2 n + 55) in
  let m := 2 * (n * 2 ^ k / d) + (if (n * 2 ^ k) mod d =? 0 then 0 else 1) in
  let negative := xorb (a <? 0) (b <? 0) in
  SF2Prim (binary_normalize prec emax (if negative then - m else m) (- k - 1) negative).

(** The operand [a] of a NumPy true division with [b]: two integers are
    operands of 64 bits first. *)
Definition float64_operand (a b : number) : res float :=
  match integer a, integer b with
  | Some x, Some _ => let! x := int64_of a x in Ok (float_of_Z x)
  | _, _ => to_float a
  end.

(** True division [a / b]: the result is always a float.  Between Python
    numbers a zero divisor raises [ZeroDivisionError]; NumPy divides by
    zero with a warning and gives an infinity or NaN. *)
Definition num_truediv (a b : number) : res number :=
  if is_numpy a || is_numpy b then
    let! x := float64_operand a b in
    let! y := float64_operand b a in
    Ok (Float64 (x / y)%float)
  else if num_is_zero b then Raise ZeroDivisionError
  else
    match integer a, integer b with
    | Some x, Some y =>
        let f := int_truediv x y in
        if PrimFloat.is_infinity f then Raise OverflowError else Ok (Float f)
    | _, _ => let! x := to_float a in let! y := to_float b in Ok (Float (x / y)%float)
    end.

(** Exact comparison of an integer with a float, as Python does it. *)
Definition cmp_Z_float (z : Z) (f : float) : option comparison :=
  match Prim2SF f with
  | S754_nan => None
  | S754_infinity neg => Some (if neg then Gt else Lt)
  | S754_zero _ => Some (z ?= 0)
  | S754_finite neg m e =>
      let v := if neg then Z.neg m else Z.pos m in
      Some (match e with
            | Z.neg k => (z * 2 ^ Z.pos k) ?= v
            | _ => z ?= v * 2 ^ e
            end)
  end.

Definition cmp_float (f g : float) : option comparison :=
  match PrimFloat.compare f g with
  | FEq => Some Eq
  | FLt => Some Lt
  | FGt => Some Gt
  | FNotComparable => None
  end.

(** The number as NumPy takes it into a comparison of floats. *)
Definition float_of (n : number) : float :=
  match n with
  | Int z | Int64 z => float_of_Z z
  | Float f | Float64 f => f
  end.

(** [None] when the two numbers are unordered (one of them is NaN).  Two
    integers are compared exactly.  Python compares an [int] with a
    [float] exactly; when a NumPy scalar takes part, an integer and a
    float are compared as floats. *)
Definition num_cmp (a b : number) : option comparison :=
  match a, b with
  | (Int x | Int64 x), (Int y | Int64 y) => Some (x ?= y)
  | Int x, Float g => cmp_Z_float x g
  | Float f, Int y => CompOpp <$> cmp_Z_float y f
  | _, _ => cmp_float (float_of a) (float_of b)
  end.

Definition str_cmp (s t : string) : comparison := String.compare s t.

(** [a == b] never raises: values of different kinds are unequal, NaN is
    unequal to everything. *)
Definition py_eq (a b : value) : bool :=
  match a, b with
  | Num x, Num y => match num_cmp x y with Some Eq => true | _ => false end
  | Str s, Str t => String.eqb s t
  | _, _ => false
  end.

(** The ordering operators raise [TypeError] between a string and a
    number. *)
Definition py_order (test : option comparison -> bool) (a b : value) : res bool :=
  match a, b with
  | Num x, Num y => Ok (test (num_cmp x y))
  | Str s, Str t => Ok (test (Some (str_cmp s t)))
  | _, _ => Raise TypeError
  end.

Definition py_gt := py_order (fun c => match c with Some Gt => true | _ => false end).
Definition py_lt := py_order (fun c => match c with Some Lt => true | _ => false end).
Definition py_ge :=
  py_order (fun c => match c with Some Gt | Some Eq => true | _ => false end).
Definition py_le :=
  py_order (fun c => match c with Some Lt | Some Eq => true | _ => false end).

(** Truth value of a scalar in a condition. *)
Definition py_bool (v : value) : bool :=
  match v with
  | Num n => negb (num_is_zero n)
  | Str s => negb (String.eqb s "")
  end.

Fixpoint str_repeat (s : string) (n : nat) : string :=
  match n with
  | O => ""
  | S n' => s +:+ str_repeat s n'
  end.

(** [a + b]: numbers add, strings concatenate. *)
Definition py_add (a b : value) : res value :=
  match a, b with
  | Num x, Num y => let! n := num_add x y in Ok (Num n)
  | Str s, Str t => Ok (Str (s +:+ t))
  | _, _ => Raise TypeError
  end.

(** [a * b]: numbers multiply, an integer repeats a string. *)
Definition py_mul (a b : value) : res value :=
  match a, b with
  | Num x, Num y => let! n := num_mul x y in Ok (Num n)
  | Num (Int k | Int64 k), Str s | Str s, Num (Int k | Int64 k) =>
      Ok (Str (str_repeat s (Z.to_nat k)))
  | _, _ => Raise TypeError
  end.

Definition py_truediv (a b : value) : res value :=
  match a, b with
  | Num x, Num y => let! n := num_truediv x y in Ok (Num n)
  | _, _ => Raise TypeError
  end.

Definition str_of_Z (z : Z) : string := NilZero.string_of_int (Z.to_int z).

(** ** pandas: DataFrame, Series comparison, missing values *)

Record DataFrame : Type := {
  columns : list string;
  rows : list (gmap string value)
}.

(** [pd.DataFrame()] *)
Definition empty_frame : DataFrame := {| columns := []; rows := [] |}.

(** The cell of a row under a label of the frame; absent entries are
    missing values. *)
Definition cell (r : gmap string value) (c : string) : value :=
  default NaN (r !! c).

Definition has_column (df : DataFrame) (c : string) : bool :=
  bool_decide (c ∈ columns df).

(** *** Column dtypes *)

Inductive dtype : Set := int64 | float64 | object.

Definition is_int64_cell (v : value) : bool :=
  match v with
  | Num n => match integer n with Some z => fits_int64 z | None => false end
  | Str _ => false
  end.

Definition is_float_cell (v : value) : bool :=
  match v with
  | Num (Float _ | Float64 _) => true
  | _ => false
  end.

(** A number that a float column can hold. *)
Definition is_float64_cell (v : value) : bool :=
  match v with
  | Num n => negb (PrimFloat.is_infinity (float_of n)) || is_float_cell v
  | Str _ => false
  end.

(** The dtype that pandas infers for a column of these cells: integers
    of 64 bits make an [int64] column; numbers with a float among them
    (a missing cell is one) make a [float64] column, in which the
    integers are kept as floats; anything else (a string, an integer
    beyond 64 bits among integers, no cell at all) makes an [object]
    column, which keeps the cells as they are. *)
Definition infer_dtype (cells : list value) : dtype :=
  match cells with
  | [] => object
  | _ :: _ =>
      if forallb is_int64_cell cells then int64
      else if forallb is_float64_cell cells && existsb is_float_cell cells then float64
      else object
  end.

(** The element of a column of dtype [d] for the cell [v]: a NumPy scalar
    in a typed column. *)
Definition astype (d : dtype) (v : value) : value :=
  match d, v with
  | int64, Num n => match integer n with Some z => Num (Int64 z) | None => v end
  | float64, Num n => Num (Float64 (float_of n))
  | _, _ => v
  end.

(** The Python scalar of a NumPy scalar: what [astype(object)],
    [.item()] and [to_dict] make of it. *)
Definition native (v : value) : value :=
  match v with
  | Num (Int64 z) => Num (Int z)
  | Num (Float64 f) => Num (Float f)
  | _ => v
  end.

Definition column_dtype (df : DataFrame) (c : string) : dtype :=
  infer_dtype (map (fun r => cell r c) (rows df)).

(** [df[c]] at the row [r]: the element of the column. *)
Definition element (df : DataFrame) (c : string) (r : gmap string value) : value :=
  astype (column_dtype df c) (cell r c).

(** The dtype of the rows that [iterrows()] yields: the common dtype of
    the columns. *)
Definition common_dtype (ds : list dtype) : dtype :=
  if existsb (fun d => match d with object => true | _ => false end) ds then object
  else if existsb (fun d => match d with float64 => true | _ => false end) ds then float64
  else int64.

Definition row_dtype (df : DataFrame) : dtype :=
  common_dtype (map (column_dtype df) (columns df)).

(** [row[key]] for a row [r] of [df.iterrows()] and a column [key]: rows
    of integers hold [numpy.int64], rows of numbers [numpy.float64] (an
    integer becomes a float); in a row of objects the element of a typed
    column is a Python scalar. *)
Definition item (df : DataFrame) (r : gmap string value) (key : string) : value :=
  match row_dtype df with
  | object =>
      match column_dtype df key with
      | object => cell r key
      | d => native (astype d (cell r key))
      end
  | d => astype d (element df key r)
  end.

(** A column as a comparison sees it. *)
Record Series : Set := {
  dtype_of : dtype;
  values : list value
}.

(** [df[col]] *)
Definition series (df : DataFrame) (c : string) : res Series :=
  if has_column df c then
    Ok {| dtype_of := column_dtype df c; values := map (element df c) (rows df) |}
  else Raise KeyError.

(** [row[key]] for a row handed out by [df.iterrows()] *)
Definition getitem (df : DataFrame) (r : gmap string value) (key : string) : res value :=
  if has_column df key then Ok (item df r key) else Raise KeyError.

(** [row.to_dict()] for such a row: the values are Python scalars. *)
Definition to_dict (df : DataFrame) (r : gmap string value) : gmap string value :=
  list_to_map (map (fun c => (c, native (item df r c))) (columns df)).

(** [df[mask]] *)
Fixpoint select {A} (mask : list bool) (l : list A) : list A :=
  match mask, l with
  | b :: mask', x :: l' => if b then x :: select mask' l' else select mask' l'
  | _, _ => []
  end.

Definition pd_isna (n : number) : bool :=
  match n with
  | Int _ | Int64 _ => false
  | Float f | Float64 f => PrimFloat.is_nan f
  end.

Definition is_missing (v : value) : bool :=
  match v with
  | Num n => pd_isna n
  | Str _ => false
  end.

Definition is_str (v : value) : bool :=
  match v with
  | Str _ => true
  | Num _ => false
  end.

(** ** [src/lookup.py] *)

(** A criteria value: a scalar (equality) or a tuple. *)
Inductive criterion : Set :=
  | Scalar (v : value)
  | Tuple (items : list value).

(** A criteria dict, in insertion order. *)
Definition criteria : Set := list (string * criterion).

(** [d.update(u)]: a key of [d] keeps its position and takes the new
    value, a new key is appended. *)
Fixpoint dict_set (d : criteria) (k : string) (c : criterion) : criteria :=
  match d with
  | [] => [(k, c)]
  | (k', c') :: d' =>
      if String.eqb k' k then (k', c) :: d' else (k', c') :: dict_set d' k c
  end.

Definition dict_update (d u : criteria) : criteria :=
  fold_left (fun acc kc => dict_set acc kc.1 kc.2) u d.

(** The arguments [df] and [criteria] as the caller passes them: the
    function checks their types itself. *)
Inductive table_arg : Type :=
  | IsDataFrame (df : DataFrame)
  | NotDataFrame.

Inductive criteria_arg : Set :=
  | IsDict (c : criteria)
  | NotDict.

(** What [lookup] returns: a DataFrame or a list of dicts. *)
Inductive lookup_result : Type :=
  | Frame (df : DataFrame)
  | DictList (l : list (gmap string value)).

(** [df[col]] where [col] is any scalar: the labels are strings. *)
Definition series_at (df : DataFrame) (col : value) : res Series :=
  match col with
  | Str c => series df c
  | Num _ => Raise KeyError
  end.

(** [series == v]: the elements are compared one by one, those of a
    typed column as the NumPy scalars they are; it never raises. *)
Definition series_eq (s : Series) (v : value) : list bool :=
  map (fun x => py_eq x v) (values s).

(** [series > v] and the like, [cmp] being the operator on scalars.
    Against a missing [v] every row is false.  A column of numbers
    ([int64] or [float64]) against a string raises [TypeError].
    Otherwise the elements are compared one by one: a missing element is
    false, and a string against a number raises [TypeError]. *)
Definition numeric_series (s : Series) : bool :=
  match dtype_of s with
  | int64 | float64 => true
  | object => false
  end.

Definition series_order (cmp : value -> value -> res bool) (s : Series) (v : value)
  : res (list bool) :=
  if is_missing v then Ok (map (fun _ => false) (values s))
  else if numeric_series s && is_str v then Raise TypeError
  else mapM (fun x => if is_missing x then Ok false else cmp x v) (values s).

(** The chain [if operator == '>' ... else raise ValueError]. *)
Definition apply_operator (df : DataFrame) (col operator v : value) : res (list bool) :=
  if py_eq operator (Str ">") then
    let! s := series_at df col in series_order py_gt s v
  else if py_eq operator (Str "<") then
    let! s := series_at df col in series_order py_lt s v
  else if py_eq operator (Str ">=") then
    let! s := series_at df col in series_order py_ge s v
  else if py_eq operator (Str "<=") then
    let! s := series_at df col in series_order py_le s v
  else if py_eq operator (Str "=") then
    let! s := series_at df col in Ok (series_eq s v)
  else Raise ValueError.

(** The body of the loop over [criteria.items()]: the mask of one entry. *)
Definition criteria_mask (df : DataFrame) (col : string) (c : criterion) : res (list bool) :=
  match c with
  | Tuple [operation_row_col; operator; v] => apply_operator df operation_row_col operator v
  | Tuple [operator; v] => apply_operator df (Str col) operator v
  | Tuple _ => Raise ValueError
  | Scalar v => let! s := series df col in Ok (series_eq s v)
  end.

(** The loop: [combined_mask &= criteria_mask] for each entry in order. *)
Fixpoint apply_criteria (df : DataFrame) (crit : criteria) (combined_mask : list bool)
  : res (list bool) :=
  match crit with
  | [] => Ok combined_mask
  | (col, c) :: crit' =>
      let! m := criteria_mask df col c in
      apply_criteria df crit' (zip_with andb combined_mask m)
  end.

(** [matched_rows[output_columns]] *)
Definition project_frame (df : DataFrame) (output_columns : list string) : res DataFrame :=
  if forallb (has_column df) output_columns then
    Ok {| columns := output_columns; rows := rows df |}
  else Raise KeyError.

(** [{key: row[key] for key in output_columns}] *)
Definition project_row (df : DataFrame) (r : gmap string value) (output_columns : list string)
  : res (gmap string value) :=
  let! kvs := mapM (fun key => let! v := getitem df r key in Ok (key, v)) output_columns in
  Ok (list_to_map kvs).

(** The selection [df[combined_mask]] keeps the dtypes of [df], so the
    rows of [matched_rows.iterrows()] are rows of [df] as [df] yields
    them. *)
Definition _perform_lookup (df : table_arg) (crit : criteria_arg)
    (output_columns : option (list string)) (output_format : string) : res lookup_result :=
  match df with
  | NotDataFrame => Raise TypeError
  | IsDataFrame df =>
  match crit with
  | NotDict => Raise TypeError
  | IsDict crit =>
      let! combined_mask := apply_criteria df crit (repeat true (length (rows df))) in
      let matched_rows := {| columns := columns df; rows := select combined_mask (rows df) |} in
      if String.eqb output_format "dataframe" then
        match output_columns with
        | None => Ok (Frame matched_rows)
        | Some cols => let! out := project_frame matched_rows cols in Ok (Frame out)
        end
      else if String.eqb output_format "dictionary_list" then
        let! intervention_data :=
          mapM (fun row =>
                  match output_columns with
                  | None => Ok (to_dict df row)
                  | Some cols => project_row df row cols
                  end) (rows matched_rows) in
        Ok (DictList intervention_data)
      else Raise ValueError
  end
  end.

(** [if result:] a list is true when it is not empty; pandas refuses to
    give a DataFrame a truth value and raises [ValueError]. *)
Definition truth (result : lookup_result) : res bool :=
  match result with
  | DictList l => Ok (match l with [] => false | _ :: _ => true end)
  | Frame _ => Raise ValueError
  end.

(** [pd.DataFrame() if output_format == 'dataframe' else []] *)
Definition empty_result (output_format : string) : lookup_result :=
  if String.eqb output_format "dataframe" then Frame empty_frame else DictList [].

(** [criteria.copy()] followed by [.update(criteria_update)] *)
Definition copy_update (crit : criteria_arg) (criteria_update : criteria) : res criteria_arg :=
  match crit with
  | IsDict c => Ok (IsDict (dict_update c criteria_update))
  | NotDict => Raise AttributeError
  end.

(** The loop over [fallback_criteria]; falling out of it reaches the
    final [return] of the [try] block. *)
Fixpoint try_fallbacks (df : table_arg) (crit : criteria_arg)
    (output_columns : option (list string)) (output_format : string)
    (fallback_criteria : list criteria) : res lookup_result :=
  match fallback_criteria with
  | [] => Ok (empty_result output_format)
  | criteria_update :: rest =>
      let! updated_criteria := copy_update crit criteria_update in
      let! result := _perform_lookup df updated_criteria output_columns output_format in
      let! t := truth result in
      if t then Ok result
      else try_fallbacks df crit output_columns output_format rest
  end.

(** The [try] block of [lookup]. *)
Definition lookup_try (df : table_arg) (crit : criteria_arg)
    (output_columns : option (list string)) (output_format : string)
    (fallback_criteria : list criteria) : res lookup_result :=
  let! result := _perform_lookup df crit output_columns output_format in
  let! t := truth result in
  if t then Ok result
  else try_fallbacks df crit output_columns output_format fallback_criteria.

(** [except (KeyError, IndexError, TypeError, ValueError)] *)
Definition caught (e : exn) : bool :=
  match e with
  | KeyError | IndexError | TypeError | ValueError => true
  | _ => false
  end.

(** [lookup]; an absent [fallback_criteria] ([None]) is the empty list,
    which the test [if fallback_criteria:] treats alike. *)
Definition lookup (df : table_arg) (crit : criteria_arg)
    (output_columns : option (list string)) (output_format : string)
    (fallback_criteria : list criteria) : res lookup_result :=
  match lookup_try df crit output_columns output_format fallback_criteria with
  | Ok result => Ok result
  | Raise e => if caught e then Ok (empty_result output_format) else Raise e
  end.

(** ** [src/emissions_calculator.py] *)

(** What the module takes from outside the repository: the formatting
    of a float inside an f-string (the same digits for a Python and a
    NumPy float), pandas' parser of a numeric string (behind
    [pd.to_numeric]; it gives a NumPy scalar), and the year of
    [datetime.datetime.now()]. *)
Record Env : Type := {
  repr_float : float -> string;
  parse_numeric : string -> option number;
  current_year : Z
}.

(** [f'{v}'] *)
Definition py_format (env : Env) (v : value) : string :=
  match v with
  | Num (Int z | Int64 z) => str_of_Z z
  | Num (Float f | Float64 f) => repr_float env f
  | Str s => s
  end.

(** [pd.to_numeric(v, errors='coerce')]: a number is returned as it is, a
    string is parsed, and what does not parse becomes NaN. *)
Definition to_numeric (env : Env) (v : value) : number :=
  match v with
  | Num n => n
  | Str s => default (Float nan) (parse_numeric env s)
  end.

(** [x = pd.to_numeric(v, errors='coerce')] then
    [x if not pd.isna(x) else 0] *)
Definition numeric_or_zero (env : Env) (v : value) : number :=
  let x := to_numeric env v in
  if pd_isna x then Int 0 else x.

(** [len(result)] *)
Definition py_len (result : lookup_result) : Z :=
  match result with
  | DictList l => Z.of_nat (length l)
  | Frame df => Z.of_nat (length (rows df))
  end.

(** [result[0]] as a dict *)
Definition first_item (result : lookup_result) : res (gmap string value) :=
  match result with
  | DictList (d :: _) => Ok d
  | DictList [] => Raise IndexError
  | Frame _ => Raise KeyError
  end.

(** [result[0][key] if result else 0] *)
Definition first_or_zero (result : lookup_result) (key : string) : res value :=
  let! t := truth result in
  if t then
    let! d := first_item result in
    match d !! key with
    | Some v => Ok v
    | None => Raise KeyError
    end
  else Ok zero.

(** [result[0].get(key, 0) if result else 0] *)
Definition first_get_or_zero (result : lookup_result) (key : string) : res value :=
  let! t := truth result in
  if t then
    let! d := first_item result in Ok (default zero (d !! key))
  else Ok zero.

Definition dictionary_list : string := "dictionary_list".

Section Stage1.
Variable env : Env.
(** The frame being iterated and the current row of [iterrows()]. *)
Variables (operation_data : DataFrame) (row : gmap string value).
Variables (fuel_data refrigerant_gwp refrigerator_data vehicle_interventions
           vehicle_interventions_tru farm_emissions : DataFrame).

Definition lookup_annual_leakage_rate : res value :=
  let! refrigerator_type := getitem operation_data row "refrigerator_type" in
  let! found := lookup (IsDataFrame refrigerator_data)
                  (IsDict [("refrigerator_type", Scalar refrigerator_type)])
                  (Some ["annual_leakage_rate"]) dictionary_list [] in
  first_or_zero found "annual_leakage_rate".

Definition lookup_refrigerant_gwp_value : res value :=
  let! refrigerant_type := getitem operation_data row "refrigerant_type" in
  let! found := lookup (IsDataFrame refrigerant_gwp)
                  (IsDict [("refrigerant_type", Scalar refrigerant_type)])
                  (Some ["refrigerant_gwp"]) dictionary_list [] in
  first_or_zero found "refrigerant_gwp".

Definition lookup_tru_annual_leakage_rate : res value :=
  let! found := lookup (IsDataFrame refrigerator_data)
                  (IsDict [("refrigerator_type",
                            Scalar (Str "Transportation Refrigeration Unit"))])
                  (Some ["annual_leakage_rate"]) dictionary_list [] in
  first_or_zero found "annual_leakage_rate".

Definition lookup_tru_refrigerant_gwp_value : res value :=
  let! tru_refrigerant_type := getitem operation_data row "tru_refrigerant_type" in
  let! found := lookup (IsDataFrame refrigerant_gwp)
                  (IsDict [("refrigerant_type", Scalar tru_refrigerant_type)])
                  (Some ["refrigerant_gwp"]) dictionary_list [] in
  first_or_zero found "refrigerant_gwp".

Definition lookup_tru_data : res lookup_result :=
  let! tru_subcategory := getitem operation_data row "tru_subcategory" in
  let! tru_model_year := getitem operation_data row "tru_model_year" in
  lookup (IsDataFrame vehicle_interventions_tru)
    (IsDict [("tru_type", Scalar tru_subcategory); ("model_year", Scalar tru_model_year)])
    (Some ["co2e_per_kwh_diesel_tru"; "tru_power_rating"; "average_load_factor";
           "tru_annual_hours"; "tru_plug_in_fraction_of_hours"])
    dictionary_list [].

(** The three lookups of [farm_emissions] differ by the field of the
    row they read. *)
Definition lookup_emission_per_unit (type_field : string) : res value :=
  let! subcategory := getitem operation_data row type_field in
  let! found := lookup (IsDataFrame farm_emissions)
                  (IsDict [("subcategory", Scalar subcategory)])
                  (Some ["emission_per_unit"]) dictionary_list [] in
  first_or_zero found "emission_per_unit".

Definition lookup_vehicle_fuel_efficiency : res value :=
  let! vehicle_subcategory := getitem operation_data row "vehicle_subcategory" in
  let! fuel_type := getitem operation_data row "fuel_type" in
  let! vehicle_production_year := getitem operation_data row "vehicle_production_year" in
  let! vehicle_manufacturer := getitem operation_data row "vehicle_manufacturer" in
  let! found := lookup (IsDataFrame vehicle_interventions)
                  (IsDict [("vehicle_subcategory", Scalar vehicle_subcategory);
                           ("fuel_type", Scalar fuel_type);
                           ("vehicle_production_year", Scalar vehicle_production_year);
                           ("vehicle_manufacturer", Scalar vehicle_manufacturer)])
                  (Some ["fuel_efficiency"]) dictionary_list
                  [[("vehicle_production_year", Scalar (Num (Int 0)))];
                   [("vehicle_manufacturer", Scalar (Str "Others"))];
                   [("vehicle_production_year", Scalar (Num (Int 0)));
                    ("vehicle_manufacturer", Scalar (Str "Others"))]] in
  first_or_zero found "fuel_efficiency".

(** ['mobile' if row['entity'] == 'vehicle' and
    row['fuel_type'] != 'Electricity' else 'stationary'] *)
Definition fuel_mode_of_row : res string :=
  let! entity := getitem operation_data row "entity" in
  let! mobile :=
    (if py_eq entity (Str "vehicle") then
       let! fuel_type := getitem operation_data row "fuel_type" in
       Ok (negb (py_eq fuel_type (Str "Electricity")))
     else Ok false) in
  Ok (if mobile then "mobile" else "stationary")%string.

(** The fuel block: the pair (current factor, forecast factor). *)
Definition lookup_fuel_emission_factors : res (value * value) :=
  let! fuel_mode := fuel_mode_of_row in
  let! target_completion_year := getitem operation_data row "target_completion_year" in
  let target_year_co2e := ("co2e_" +:+ py_format env target_completion_year)%string in
  let current_year_co2e := ("co2e_" +:+ str_of_Z (current_year env))%string in
  let! fuel_type := getitem operation_data row "fuel_type" in
  let! state_or_province := getitem operation_data row "state_or_province" in
  let! fuel_emission_factors :=
    lookup (IsDataFrame fuel_data)
      (IsDict [("fuel_type", Scalar fuel_type);
               ("fuel_mode", Scalar (Str fuel_mode));
               ("state_or_province", Scalar state_or_province)])
      (Some [current_year_co2e; target_year_co2e]) dictionary_list
      [[("state_or_province", Scalar (Str "Any"))]] in
  let! fuel_emission_factor_current :=
    first_get_or_zero fuel_emission_factors current_year_co2e in
  let! target_completion_year := getitem operation_data row "target_completion_year" in
  let! fuel_emission_factor_forecast :=
    (if py_eq target_completion_year (Num (Int (current_year env)))
        && (py_len fuel_emission_factors =? 1)
     then Ok fuel_emission_factor_current
     else first_get_or_zero fuel_emission_factors target_year_co2e) in
  Ok (fuel_emission_factor_current, fuel_emission_factor_forecast).
End Stage1.

(** The variables that stage 1 leaves for stage 3. *)
Record Secondary : Set := {
  annual_leakage_rate : value;
  refrigerant_gwp_value : value;
  tru_annual_leakage_rate : value;
  tru_refrigerant_gwp_value : value;
  emission_factor_diesel_tru : value;
  tru_power_rating : value;
  average_tru_load_factor : value;
  tru_annual_hours : value;
  tru_plug_in_fraction_of_hours : value;
  emission_per_unit_livestock : value;
  emission_per_unit_fertilizer : value;
  emission_per_unit_waste : value;
  vehicle_fuel_efficiency : value;
  fuel_emission_factor_current : value;
  fuel_emission_factor_forecast : value
}.

Definition stage1 (env : Env) (operation_data : DataFrame) (row : gmap string value)
    (fuel_data refrigerant_gwp refrigerator_data vehicle_interventions
     vehicle_interventions_tru farm_emissions : DataFrame) : res Secondary :=
  let! alr := lookup_annual_leakage_rate operation_data row refrigerator_data in
  let! gwp := lookup_refrigerant_gwp_value operation_data row refrigerant_gwp in
  let! tru_alr := lookup_tru_annual_leakage_rate refrigerator_data in
  let! tru_gwp := lookup_tru_refrigerant_gwp_value operation_data row refrigerant_gwp in
  let! tru_data := lookup_tru_data operation_data row vehicle_interventions_tru in
  let! diesel := first_or_zero tru_data "co2e_per_kwh_diesel_tru" in
  let! power := first_or_zero tru_data "tru_power_rating" in
  let! load := first_or_zero tru_data "average_load_factor" in
  let! hours := first_or_zero tru_data "tru_annual_hours" in
  let! plug_in := first_or_zero tru_data "tru_plug_in_fraction_of_hours" in
  let! livestock := lookup_emission_per_unit operation_data row farm_emissions "livestock_type" in
  let! fertilizer := lookup_emission_per_unit operation_data row farm_emissions "fertilizer_type" in
  let! waste := lookup_emission_per_unit operation_data row farm_emissions "waste_type" in
  let! efficiency := lookup_vehicle_fuel_efficiency operation_data row vehicle_interventions in
  let! factors := lookup_fuel_emission_factors env operation_data row fuel_data in
  Ok {| annual_leakage_rate := alr;
        refrigerant_gwp_value := gwp;
        tru_annual_leakage_rate := tru_alr;
        tru_refrigerant_gwp_value := tru_gwp;
        emission_factor_diesel_tru := diesel;
        tru_power_rating := power;
        average_tru_load_factor := load;
        tru_annual_hours := hours;
        tru_plug_in_fraction_of_hours := plug_in;
        emission_per_unit_livestock := livestock;
        emission_per_unit_fertilizer := fertilizer;
        emission_per_unit_waste := waste;
        vehicle_fuel_efficiency := efficiency;
        fuel_emission_factor_current := factors.1;
        fuel_emission_factor_forecast := factors.2 |}.

(** The nine numeric fields of the row after stage 2. *)
Record Inputs : Set := {
  fuel_amount : number;
  refrigerant_charge : number;
  number_of_refrigerators : number;
  operating_distance : number;
  tru_number_of_vehicle_units : number;
  tru_refrigerant_charge : number;
  livestock_count : number;
  fertilizer_amount : number;
  waste_amount : number
}.

(** One field of stage 2: read the cell, coerce it, replace NaN by 0. *)
Definition numeric_field (env : Env) (operation_data : DataFrame)
    (row : gmap string value) (field : string) : res number :=
  let! v := getitem operation_data row field in
  Ok (numeric_or_zero env v).

Definition stage2 (env : Env) (operation_data : DataFrame) (row : gmap string value)
  : res Inputs :=
  let! fa := numeric_field env operation_data row "fuel_amount" in
  let! rc := numeric_field env operation_data row "refrigerant_charge" in
  let! nr := numeric_field env operation_data row "number_of_refrigerators" in
  let! od := numeric_field env operation_data row "operating_distance" in
  let! tn := numeric_field env operation_data row "tru_number_of_vehicle_units" in
  let! tc := numeric_field env operation_data row "tru_refrigerant_charge" in
  let! lc := numeric_field env operation_data row "livestock_count" in
  let! fe := numeric_field env operation_data row "fertilizer_amount" in
  let! wa := numeric_field env operation_data row "waste_amount" in
  Ok {| fuel_amount := fa;
        refrigerant_charge := rc;
        number_of_refrigerators := nr;
        operating_distance := od;
        tru_number_of_vehicle_units := tn;
        tru_refrigerant_charge := tc;
        livestock_count := lc;
        fertilizer_amount := fe;
        waste_amount := wa |}.

(** One dict appended to [results]. *)
Record EmissionRecord : Set := {
  operation_id : value;
  fuel_emissions : value;
  vehicle_emissions : value;
  refrigerant_emissions : value;
  livestock_emissions : value;
  fertilizer_emissions : value;
  waste_emissions : value;
  tru_emissions : value;
  total_emissions : value
}.

Definition two : value := Num (Int 2).

(** [fuel_amount * ((forecast + current)) / 2] *)
Definition calc_fuel_emissions (s : Secondary) (n : Inputs) : res value :=
  let! factors := py_add (fuel_emission_factor_forecast s) (fuel_emission_factor_current s) in
  let! product := py_mul (Num (fuel_amount n)) factors in
  py_truediv product two.

(** [(operating_distance / vehicle_fuel_efficiency *
      ((forecast + current) / 2)) if vehicle_fuel_efficiency else 0] *)
Definition calc_vehicle_emissions (s : Secondary) (n : Inputs) : res value :=
  if py_bool (vehicle_fuel_efficiency s) then
    let! fuel_used := py_truediv (Num (operating_distance n)) (vehicle_fuel_efficiency s) in
    let! factors := py_add (fuel_emission_factor_forecast s) (fuel_emission_factor_current s) in
    let! mean := py_truediv factors two in
    py_mul fuel_used mean
  else Ok zero.

Definition calc_refrigerant_emissions (s : Secondary) (n : Inputs) : res value :=
  let! a := py_mul (Num (refrigerant_charge n)) (annual_leakage_rate s) in
  let! b := py_mul a (refrigerant_gwp_value s) in
  py_mul b (Num (number_of_refrigerators n)).

Definition calc_tru_emissions (s : Secondary) (n : Inputs) : res value :=
  let! a := py_mul (tru_power_rating s) (average_tru_load_factor s) in
  let! b := py_mul a (tru_annual_hours s) in
  let! c := py_mul b (tru_plug_in_fraction_of_hours s) in
  let! engine := py_mul c (emission_factor_diesel_tru s) in
  let! d := py_mul (tru_refrigerant_gwp_value s) (Num (tru_refrigerant_charge n)) in
  let! leak := py_mul d (tru_annual_leakage_rate s) in
  let! both := py_add engine leak in
  py_mul both (Num (tru_number_of_vehicle_units n)).

Definition stage3 (operation_data : DataFrame) (row : gmap string value)
    (s : Secondary) (n : Inputs) : res EmissionRecord :=
  let! fuel := calc_fuel_emissions s n in
  let! vehicle := calc_vehicle_emissions s n in
  let! refrigerant := calc_refrigerant_emissions s n in
  let! livestock := py_mul (Num (livestock_count n)) (emission_per_unit_livestock s) in
  let! fertilizer := py_mul (Num (fertilizer_amount n)) (emission_per_unit_fertilizer s) in
  let! waste := py_mul (Num (waste_amount n)) (emission_per_unit_waste s) in
  let! tru := calc_tru_emissions s n in
  let! t1 := py_add fuel vehicle in
  let! t2 := py_add t1 refrigerant in
  let! t3 := py_add t2 livestock in
  let! t4 := py_add t3 fertilizer in
  let! t5 := py_add t4 waste in
  let! total := py_add t5 tru in
  let! id := getitem operation_data row "operation_id" in
  Ok {| operation_id := id;
        fuel_emissions := fuel;
        vehicle_emissions := vehicle;
        refrigerant_emissions := refrigerant;
        livestock_emissions := livestock;
        fertilizer_emissions := fertilizer;
        waste_emissions := waste;
        tru_emissions := tru;
        total_emissions := total |}.

(** The body of the loop over [operation_data.iterrows()]. *)
Definition emissions_of_row (env : Env) (operation_data fuel_data refrigerant_gwp
    refrigerator_data vehicle_interventions vehicle_interventions_tru farm_emissions
    : DataFrame) (row : gmap string value) : res EmissionRecord :=
  let! s := stage1 env operation_data row fuel_data refrigerant_gwp refrigerator_data
              vehicle_interventions vehicle_interventions_tru farm_emissions in
  let! n := stage2 env operation_data row in
  stage3 operation_data row s n.

(** The returned table, one record per row in input order; an exception
    in a row ends the run. *)
Definition calculate_annual_emissions (env : Env) (operation_data fuel_data refrigerant_gwp
    refrigerator_data vehicle_interventions vehicle_interventions_tru farm_emissions
    : DataFrame) : res (list EmissionRecord) :=
  mapM (emissions_of_row env operation_data fuel_data refrigerant_gwp refrigerator_data
          vehicle_interventions vehicle_interventions_tru farm_emissions)
       (rows operation_data).

(** ** [src/data_loader.py] *)

(** The characters of a path. *)
Definition chars (p : string) : list ascii := String.list_ascii_of_string p.

(** [p.rfind(c)]: the index of the last [c], -1 when there is none. *)
Fixpoint rfind_from (c : ascii) (l : list ascii) (i last : Z) : Z :=
  match l with
  | [] => last
  | a :: l' => rfind_from c l' (i + 1) (if Ascii.eqb a c then i else last)
  end.

Definition rfind (c : ascii) (p : string) : Z := rfind_from c (chars p) 0 (-1).

(** The loop of [os.path.splitext]: some character at an index of
    [from, dot) is not a dot. *)
Fixpoint has_stem (l : list ascii) (i from dot : Z) : bool :=
  match l with
  | [] => false
  | a :: l' =>
      (from <=? i) && (i <? dot) && negb (Ascii.eqb a ".") || has_stem l' (i + 1) from dot
  end.

(** [os.path.splitext(p)[0]] on a POSIX path: the path without its
    extension; leading dots of the last component are not an extension. *)
Definition splitext_root (p : string) : string :=
  let sepIndex := rfind "/" p in
  let dotIndex := rfind "." p in
  if (dotIndex >? sepIndex) && has_stem (chars p) 0 (sepIndex + 1) dotIndex
  then String.substring 0 (Z.to_nat dotIndex) p
  else p.

(** [s.endswith(suffix)] *)
Definition endswith (s suffix : string) : bool :=
  let n := String.length s in
  let m := String.length suffix in
  (m <=? n)%nat && String.eqb (String.substring (n - m) m s) suffix.

(** What [pd.read_csv] does with a file: a table, or one of the
    exceptions that the loader catches. *)
Inductive read_outcome : Type :=
  | Parsed (df : DataFrame)
  | EmptyDataError
  | ParserError
  | OtherException.

(** What is at a path: nothing, something that cannot be listed, or a
    directory with its entries in the order of [os.listdir], each with
    the outcome of reading it. *)
Inductive path_state : Type :=
  | NoSuchPath
  | NotADirectory
  | Listing (files : list (string * read_outcome)).

Definition file_system : Type := string -> path_state.

Inductive os_error : Set :=
  | FileNotFoundError
  | NotADirectoryError.

Inductive load_result : Type :=
  | Loaded (dataframes : gmap string DataFrame)
  | LoadError (e : os_error).

(** The body of the loop over [os.listdir(csv_dir)]. *)
Definition load_file (dataframes : gmap string DataFrame) (file : string * read_outcome)
  : gmap string DataFrame :=
  if endswith file.1 ".csv" then
    match file.2 with
    | Parsed df => <[splitext_root file.1 := df]> dataframes
    | EmptyDataError | ParserError | OtherException => dataframes
    end
  else dataframes.

Definition load_data_from_directory (fs : file_system) (csv_dir : string) : load_result :=
  match fs csv_dir with
  | NoSuchPath => LoadError FileNotFoundError
  | NotADirectory => LoadError NotADirectoryError
  | Listing files => Loaded (fold_left load_file files ∅)
  end.

(** ** [scripts/calculate_emissions.py] *)

Definition required_dataframes : list string :=
  ["operation_data_test_2"; "fuel_data"; "refrigerant_gwp"; "refrigerator_data";
   "vehicle_interventions"; "vehicle_interventions_tru"; "farm_emissions"].

(** How the script ends: normally, by [sys.exit], or with a traceback. *)
Inductive ending : Set :=
  | Finished
  | SystemExit (code : Z)
  | LoadFailure (e : os_error)
  | Failure (e : exn).

(** What the script leaves: the table written to the output file, if it
    got that far, and how it ended. *)
Record outcome : Set := {
  saved : option (list EmissionRecord);
  ended : ending
}.

(** [dataframes[name]] *)
Definition frame (dataframes : gmap string DataFrame) (name : string) : res DataFrame :=
  match dataframes !! name with
  | Some df => Ok df
  | None => Raise KeyError
  end.

(** The call of the calculator with the seven loaded tables. *)
Definition calculate_from (env : Env) (dataframes : gmap string DataFrame)
  : res (list EmissionRecord) :=
  let! operation_data := frame dataframes "operation_data_test_2" in
  let! fuel_data := frame dataframes "fuel_data" in
  let! refrigerant_gwp := frame dataframes "refrigerant_gwp" in
  let! refrigerator_data := frame dataframes "refrigerator_data" in
  let! vehicle_interventions := frame dataframes "vehicle_interventions" in
  let! vehicle_interventions_tru := frame dataframes "vehicle_interventions_tru" in
  let! farm_emissions := frame dataframes "farm_emissions" in
  calculate_annual_emissions env operation_data fuel_data refrigerant_gwp refrigerator_data
    vehicle_interventions vehicle_interventions_tru farm_emissions.

(** [main], the directories being created and the output file written
    without error.  The summary reads the column [total_emissions] of
    the result, which a table built from no record does not have; the
    summary of a table with records is taken to print. *)
Definition main (env : Env) (fs : file_system) (data_dir : string) : outcome :=
  match load_data_from_directory fs data_dir with
  | LoadError e => {| saved := None; ended := LoadFailure e |}
  | Loaded dataframes =>
      let missing :=
        List.filter (fun df => bool_decide (dataframes !! df = None)) required_dataframes in
      match missing with
      | _ :: _ => {| saved := None; ended := SystemExit 1 |}
      | [] =>
          match calculate_from env dataframes with
          | Raise e => {| saved := None; ended := Failure e |}
          | Ok annual_emissions =>
              {| saved := Some annual_emissions;
                 ended := match annual_emissions with
                          | [] => Failure KeyError
                          | _ :: _ => Finished
                          end |}
          end
      end
  end.

(** ** Sample data *)

Definition mkrow (l : list (string * value)) : gmap string value := list_to_map l.

Definition operation_columns : list string :=
  ["operation_id"; "entity"; "fuel_type"; "fuel_amount"; "operating_distance";
   "refrigerator_type"; "refrigerant_type"; "refrigerant_charge";
   "number_of_refrigerators"; "vehicle_subcategory"; "vehicle_production_year";
   "vehicle_manufacturer"; "tru_subcategory"; "tru_model_year"; "tru_refrigerant_type";
   "tru_number_of_vehicle_units"; "tru_refrigerant_charge"; "livestock_type";
   "livestock_count"; "fertilizer_type"; "fertilizer_amount"; "waste_type";
   "waste_amount"; "target_completion_year"; "state_or_province"].

(** A table with the given columns and no row. *)
Definition no_rows (cols : list string) : DataFrame := {| columns := cols; rows := [] |}.

Definition cattle_farm : DataFrame :=
  {| columns := ["subcategory"; "emission_per_unit"];
     rows := [mkrow [("subcategory", Str "Cattle"); ("emission_per_unit", Num (Float 2.5))]] |}.

(** One record: ten cattle, every other cell empty. *)
Definition cattle_row : gmap string value :=
  mkrow [("operation_id", Num (Int 1)); ("livestock_type", Str "Cattle");
         ("livestock_count", Num (Int 10))].

Definition cattle_operation : DataFrame :=
  {| columns := operation_columns; rows := [cattle_row] |}.

(** What the two first stages leave for that record. *)
Definition cattle_secondary : Secondary :=
  {| annual_leakage_rate := zero;
     refrigerant_gwp_value := zero;
     tru_annual_leakage_rate := zero;
     tru_refrigerant_gwp_value := zero;
     emission_factor_diesel_tru := zero;
     tru_power_rating := zero;
     average_tru_load_factor := zero;
     tru_annual_hours := zero;
     tru_plug_in_fraction_of_hours := zero;
     emission_per_unit_livestock := Num (Float 2.5);
     emission_per_unit_fertilizer := zero;
     emission_per_unit_waste := zero;
     vehicle_fuel_efficiency := zero;
     fuel_emission_factor_current := zero;
     fuel_emission_factor_forecast := zero |}.

Definition cattle_inputs : Inputs :=
  {| fuel_amount := Int 0;
     refrigerant_charge := Int 0;
     number_of_refrigerators := Int 0;
     operating_distance := Int 0;
     tru_number_of_vehicle_units := Int 0;
     tru_refrigerant_charge := Int 0;
     livestock_count := Int 10;
     fertilizer_amount := Int 0;
     waste_amount := Int 0 |}.

(** A small table for the lookup examples. *)
Definition two_rows : DataFrame :=
  {| columns := ["a"; "b"];
     rows := [mkrow [("a", Num (Int 1)); ("b", Str "x")];
              mkrow [("a", Num (Int 2)); ("b", Str "y")]] |}.

(** A table with an integer beyond the 53 bits of a float next to a
    column of strings, and a table of numbers only. *)
Definition big_rows : DataFrame :=
  {| columns := ["a"; "b"];
     rows := [mkrow [("a", Num (Int 9007199254740993)); ("b", Str "x")];
              mkrow [("a", Num (Int 5)); ("b", Str "y")]] |}.

Definition number_rows : DataFrame :=
  {| columns := ["a"; "b"];
     rows := [mkrow [("a", Num (Int 1)); ("b", Num (Float 0.5))];
              mkrow [("a", Num (Int 9007199254740993)); ("b", Num (Float 1.5))]] |}.

(** Criteria that match no row of it, and three overlays: the first
    still matches nothing, the second matches the first row when it is
    merged onto the original criteria (and nothing when merged onto the
    first overlay's result), the third is malformed. *)
Definition a1_by : criteria := [("a", Scalar (Num (Int 1))); ("b", Scalar (Str "y"))].
Definition overlay_a3 : criteria := [("a", Scalar (Num (Int 3)))].
Definition overlay_bx : criteria := [("b", Scalar (Str "x"))].
Definition overlay_broken : criteria := [("zzz", Tuple [])].

(** Reference tables with their columns and no row. *)
Definition no_fuel : DataFrame :=
  no_rows ["fuel_type"; "fuel_mode"; "state_or_province"; "co2e_2024"; "co2e_2025"].
Definition no_gwp : DataFrame := no_rows ["refrigerant_type"; "refrigerant_gwp"].
Definition no_refrigerator : DataFrame := no_rows ["refrigerator_type"; "annual_leakage_rate"].
Definition no_vehicle : DataFrame :=
  no_rows ["vehicle_subcategory"; "fuel_type"; "vehicle_production_year";
           "vehicle_manufacturer"; "fuel_efficiency"].
Definition no_tru : DataFrame :=
  no_rows ["tru_type"; "model_year"; "co2e_per_kwh_diesel_tru"; "tru_power_rating";
           "average_load_factor"; "tru_annual_hours"; "tru_plug_in_fraction_of_hours"].
Definition no_farm : DataFrame := no_rows ["subcategory"; "emission_per_unit"].

(** The emission record of the cattle operation. *)
Definition cattle_record : EmissionRecord :=
  {| operation_id := Num (Int 1);
     fuel_emissions := Num (Float 0);
     vehicle_emissions := Num (Int 0);
     refrigerant_emissions := Num (Int 0);
     livestock_emissions := Num (Float 25);
     fertilizer_emissions := Num (Int 0);
     waste_emissions := Num (Int 0);
     tru_emissions := Num (Int 0);
     total_emissions := Num (Float 25) |}.

(** Fuel factors with one row: diesel burnt in a stationary unit in
    California, with the factor of 2024 only. *)
Definition diesel_fuel : DataFrame :=
  {| columns := ["fuel_type"; "fuel_mode"; "state_or_province"; "co2e_2024"];
     rows := [mkrow [("fuel_type", Str "Diesel"); ("fuel_mode", Str "stationary");
                     ("state_or_province", Str "CA"); ("co2e_2024", Num (Float 1.2))]] |}.




(** An environment for the examples: the year is 2024, no string parses
    as a number, and the only float that the examples format is NaN. *)
Definition env_2024 : Env :=
  {| repr_float := fun _ => "nan"%string;
     parse_numeric := fun _ => None;
     current_year := 2024 |}.

(** A farm table whose factor is missing. *)
Definition blank_farm : DataFrame :=
  {| columns := ["subcategory"; "emission_per_unit"];
     rows := [mkrow [("subcategory", Str "Cattle")]] |}.

(** The emission record of the cattle operation with that table. *)
Definition blank_record : EmissionRecord :=
  {| operation_id := Num (Int 1);
     fuel_emissions := Num (Float 0);
     vehicle_emissions := Num (Int 0);
     refrigerant_emissions := Num (Int 0);
     livestock_emissions := NaN;
     fertilizer_emissions := Num (Int 0);
     waste_emissions := Num (Int 0);
     tru_emissions := Num (Int 0);
     total_emissions := NaN |}.





(** An operation table of numbers only (the cells that the row does not
    give are missing), with fuel factors keyed by numbers. *)
Definition numeric_row : gmap string value :=
  mkrow [("operation_id", Num (Int 7)); ("fuel_type", Num (Int 1));
         ("fuel_amount", Num (Int 100)); ("target_completion_year", Num (Int 2030));
         ("state_or_province", Num (Int 2))].

Definition numeric_operation : DataFrame :=
  {| columns := operation_columns; rows := [numeric_row] |}.

Definition numeric_key_fuel : DataFrame :=
  {| columns := ["fuel_type"; "fuel_mode"; "state_or_province"; "co2e_2024"; "co2e_2030.0"];
     rows := [mkrow [("fuel_type", Num (Int 1)); ("fuel_mode", Str "stationary");
                     ("state_or_province", Num (Int 2)); ("co2e_2024", Num (Float 1));
                     ("co2e_2030.0", Num (Float 2))]] |}.

Definition env_float_2030 : Env :=
  {| repr_float := fun _ => "2030.0"%string;
     parse_numeric := fun _ => None;
     current_year := 2024 |}.


(** One record whose numeric fields are of every kind: a numeric string,
    a float, an integer, a string that is no number, and missing cells;
    an environment that reads the numeric string; what stage 2 makes of
    the record. *)
Definition mixed_row : gmap string value :=
  mkrow [("operation_id", Num (Int 4)); ("fuel_amount", Str "12");
         ("operating_distance", Num (Float 2.5)); ("refrigerant_charge", Num (Int 3));
         ("livestock_count", Str "n/a")].

Definition mixed_operation : DataFrame :=
  {| columns := operation_columns; rows := [mixed_row] |}.

Definition env_reading : Env :=
  {| repr_float := fun _ => "nan"%string;
     parse_numeric := fun s => if String.eqb s "12" then Some (Int64 12) else None;
     current_year := 2024 |}.

Definition mixed_inputs : Inputs :=
  {| fuel_amount := Int64 12;
     refrigerant_charge := Int 3;
     number_of_refrigerators := Int 0;
     operating_distance := Float 2.5;
     tru_number_of_vehicle_units := Int 0;
     tru_refrigerant_charge := Int 0;
     livestock_count := Int 0;
     fertilizer_amount := Int 0;
     waste_amount := Int 0 |}.




(** A farm table whose factor is not a number. *)
Definition unnumbered_farm : DataFrame :=
  {| columns := ["subcategory"; "emission_per_unit"];
     rows := [mkrow [("subcategory", Str "Cattle"); ("emission_per_unit", Str "n/a")]] |}.

(** An operation table that has lost all its columns but the id. *)
Definition bare_operation : DataFrame :=
  {| columns := ["operation_id"]; rows := [cattle_row] |}.


(** A data directory: one table that reads, one file that does not
    parse, one file that is not a table. *)
Definition partial_directory : file_system :=
  fun path =>
    if String.eqb path "data/raw" then
      Listing [("fuel_data.csv", Parsed diesel_fuel); ("farm_emissions.csv", ParserError);
               ("notes.txt", OtherException)]
    else NoSuchPath.

(** A data directory with the seven tables, none of which has a row. *)
Definition idle_directory : file_system :=
  fun path =>
    if String.eqb path "data/raw" then
      Listing [("operation_data_test_2.csv", Parsed (no_rows operation_columns));
               ("fuel_data.csv", Parsed no_fuel);
               ("refrigerant_gwp.csv", Parsed no_gwp);
               ("refrigerator_data.csv", Parsed no_refrigerator);
               ("vehicle_interventions.csv", Parsed no_vehicle);
               ("vehicle_interventions_tru.csv", Parsed no_tru);
               ("farm_emissions.csv", Parsed no_farm)]
    else NoSuchPath.

Definition idle_tables : gmap string DataFrame :=
  list_to_map [("operation_data_test_2", no_rows operation_columns); ("fuel_data", no_fuel);
               ("refrigerant_gwp", no_gwp); ("refrigerator_data", no_refrigerator);
               ("vehicle_interventions", no_vehicle);
               ("vehicle_interventions_tru", no_tru); ("farm_emissions", no_farm)].

(** ** What the specification says of the aggregator *)

(** The sum of the seven subtotals of a record, added in the order of
    the specification. *)
Definition sum_of_subtotals (r : EmissionRecord) : res value :=
  let! t1 := py_add (fuel_emissions r) (vehicle_emissions r) in
  let! t2 := py_add t1 (refrigerant_emissions r) in
  let! t3 := py_add t2 (livestock_emissions r) in
  let! t4 := py_add t3 (fertilizer_emissions r) in
  let! t5 := py_add t4 (waste_emissions r) in
  py_add t5 (tru_emissions r).

(** [no_zero_division m]: the computation [m] does not raise
    [ZeroDivisionError]. *)
Definition no_zero_division {A} (m : res A) : Prop := m <> Raise ZeroDivisionError.

(** The nine numeric input fields. *)
Definition numeric_fields : list string :=
  ["fuel_amount"; "refrigerant_charge"; "number_of_refrigerators"; "operating_distance";
   "tru_number_of_vehicle_units"; "tru_refrigerant_charge"; "livestock_count";
   "fertilizer_amount"; "waste_amount"].

(** A value that fails coercion: a string that does not parse as a
    number, or a missing value. *)
Definition fails_coercion (env : Env) (v : value) : Prop :=
  match v with
  | Str s => parse_numeric env s = None
  | Num n => pd_isna n = true
  end.

(** The number that a cell is coerced to, if the coercion succeeds: the
    cell itself when it is a number, the number that a numeric string
    reads as; a missing value is no number. *)
Definition coerced (env : Env) (v : value) : option number :=
  match v with
  | Num n => if pd_isna n then None else Some n
  | Str s =>
      match parse_numeric env s with
      | Some n => if pd_isna n then None else Some n
      | None => None
      end
  end.

(** The field after normalization: the coerced number, 0 when the
    coercion fails. *)
Definition coerced_or_zero (env : Env) (v : value) : number :=
  default (Int 0) (coerced env v).

(** ** What the specification says a lookup returns *)


(** A row as the table hands it out, projected to the output columns
    (to all columns, as Python scalars, when none is given). *)
Definition projected (df : DataFrame) (output_columns : option (list string))
    (r : gmap string value) : gmap string value :=
  match output_columns with
  | None => to_dict df r
  | Some cols => list_to_map (map (fun key => (key, item df r key)) cols)
  end.


(** The comparator tokens of the lookup. *)
Definition valid_operator (operator : value) : bool :=
  existsb (py_eq operator) [Str ">"; Str "<"; Str ">="; Str "<="; Str "="].

(** The failures of predicate evaluation that the specification names: a
    column that the table does not have, a comparator token that is not
    one of the five, a tuple of a length other than 2 and 3. *)
Inductive predicate_failure (df : DataFrame) : string -> criterion -> Prop :=
  | unknown_column col v :
      has_column df col = false -> predicate_failure df col (Scalar v)
  | unknown_column_pair col operator v :
      has_column df col = false -> predicate_failure df col (Tuple [operator; v])
  | unknown_column_triple key col operator v :
      has_column df col = false ->
      predicate_failure df key (Tuple [Str col; operator; v])
  | invalid_operator_pair col operator v :
      valid_operator operator = false -> predicate_failure df col (Tuple [operator; v])
  | invalid_operator_triple key col operator v :
      valid_operator operator = false ->
      predicate_failure df key (Tuple [col; operator; v])
  | malformed_tuple col items :
      length items <> 2%nat -> length items <> 3%nat ->
      predicate_failure df col (Tuple items).

(** ** Further notions for the lookup engine *)


(** The row equals every value of [l] in its column. *)
Definition row_equals_all (T : DataFrame) (l : list (string * value))
    (r : gmap string value) : bool :=
  forallb (fun kv => py_eq (element T kv.1 r) kv.2) l.





(** The first list that is not empty, the empty list when there is none. *)
Fixpoint first_nonempty {A} (ls : list (list A)) : list A :=
  match ls with
  | [] => []
  | [] :: ls' => first_nonempty ls'
  | l :: _ => l
  end.

(** The rows that an attempt with the equality criteria [l] selects. *)
Definition rows_equal_all (T : DataFrame) (l : list (string * value))
  : list (gmap string value) :=
  List.filter (row_equals_all T l) (rows T).

(** What the first of the rows [rs] of [T] holds under [key], 0 when
    there is no row. *)
Definition first_cell_or_zero (T : DataFrame) (rs : list (gmap string value))
    (key : string) : value :=
  match rs with
  | [] => zero
  | r :: _ => item T r key
  end.

(** Two computations agree: they return the same value, or both raise. *)
Definition agree {A} (m1 m2 : res A) : Prop :=
  match m1, m2 with
  | Ok a, Ok b => a = b
  | Raise _, Raise _ => True
  | _, _ => False
  end.


(** Mobile for a vehicle that does not run on electricity, stationary
    otherwise. *)
Definition fuel_mode_for (entity fuel_type : value) : string :=
  if py_eq entity (Str "vehicle") && negb (py_eq fuel_type (Str "Electricity"))
  then "mobile" else "stationary".

(** The rows from which the fuel factors are read: those of the record's
    state or province, else those of any. *)
Definition fuel_rows (F : DataFrame) (fuel_type : value) (mode : string) (state : value)
  : list (gmap string value) :=
  first_nonempty
    [rows_equal_all F [("fuel_type", fuel_type); ("fuel_mode", Str mode);
                       ("state_or_province", state)];
     rows_equal_all F [("fuel_type", fuel_type); ("fuel_mode", Str mode);
                       ("state_or_province", Str "Any")]].


(** The fields of the record that stage 1 reads. *)
Definition stage1_fields : list string :=
  ["refrigerator_type"; "refrigerant_type"; "tru_refrigerant_type"; "tru_subcategory";
   "tru_model_year"; "livestock_type"; "fertilizer_type"; "waste_type";
   "vehicle_subcategory"; "fuel_type"; "vehicle_production_year"; "vehicle_manufacturer";
   "entity"; "target_completion_year"; "state_or_province"].

(** [d.get(k)] on a criteria dict. *)
Fixpoint dict_get (d : criteria) (k : string) : option criterion :=
  match d with
  | [] => None
  | (k', c) :: d' => if String.eqb k' k then Some c else dict_get d' k
  end.

Definition keys (d : criteria) : list string := map fst d.

(** The overlay [F] merged onto a copy of the criteria [crit], as the
    specification describes it: every key of [crit] stays in place, with
    the value of [F] when [F] has the key, and the keys that only [F] has
    follow in the order of [F]. *)
Definition merge_onto (crit F : criteria) : criteria :=
  map (fun kc => (kc.1, default kc.2 (dict_get F kc.1))) crit
  ++ List.filter (fun kc => negb (bool_decide (kc.1 ∈ keys crit))) F.

(** What a sequence of attempts yields in the list format: the rows of
    the first attempt that finds some; the empty list when an attempt
    fails before that, or when none finds a row. *)
Fixpoint first_attempt (df : table_arg) (output_columns : option (list string))
    (attempts : list criteria) : list (gmap string value) :=
  match attempts with
  | [] => []
  | c :: rest =>
      match _perform_lookup df (IsDict c) output_columns dictionary_list with
      | Ok (DictList []) => first_attempt df output_columns rest
      | Ok (DictList found) => found
      | Ok (Frame _) | Raise _ => []
      end
  end.

(** * Properties *)

(** ** Scalars and comparisons at work *)

Example int_equals_float : py_eq (Num (Int 1)) (Num (Float 1)) = true.
Proof. reflexivity. Qed.

Example nan_equals_nothing : py_eq NaN NaN = false.
Proof. reflexivity. Qed.

Example string_below_number : py_lt (Str "a") (Num (Int 1)) = Raise TypeError.
Proof. reflexivity. Qed.

Example int_times_float : py_mul (Num (Int 10)) (Num (Float 2.5)) = Ok (Num (Float 25)).
Proof. reflexivity. Qed.

Example int_times_string : py_mul (Num (Int 2)) (Str "ab") = Ok (Str "abab").
Proof. reflexivity. Qed.

Example division_by_zero : py_truediv (Num (Int 1)) (Num (Float 0)) = Raise ZeroDivisionError.
Proof. reflexivity. Qed.

Example int64_product_wraps :
  py_mul (Num (Int64 4611686018427387904)) (Num (Int64 4)) = Ok (Num (Int64 0)).
Proof. reflexivity. Qed.

Example int_quotient_rounds_once :
  py_truediv (Num (Int 27021597764222979)) (Num (Int 3)) = Ok (Num (Float 9007199254740992)).
Proof. reflexivity. Qed.

Example numpy_division_by_zero :
  py_truediv (Num (Float64 1)) (Num (Int 0)) = Ok (Num (Float64 infinity)).
Proof. reflexivity. Qed.

(** An [int64] column is compared with a float as floats: the row with
    2**53 + 1 equals 2.0**53, and is not above it. *)
Example int64_column_against_float :
  lookup (IsDataFrame big_rows) (IsDict [("a", Scalar (Num (Float 9007199254740992)))])
    None dictionary_list []
  = Ok (DictList [mkrow [("a", Num (Int 9007199254740993)); ("b", Str "x")]])
  /\ lookup (IsDataFrame big_rows)
       (IsDict [("a", Tuple [Str ">"; Num (Float 9007199254740992)])])
       None dictionary_list []
     = Ok (DictList []).
Proof. split; vm_compute; reflexivity. Qed.

(** The rows of a table of numbers come back as floats. *)
Example number_rows_are_floats :
  lookup (IsDataFrame number_rows) (IsDict [("a", Scalar (Num (Int 1)))])
    None dictionary_list []
  = Ok (DictList [mkrow [("a", Num (Float 1)); ("b", Num (Float 0.5))]])
  /\ lookup (IsDataFrame number_rows)
       (IsDict [("a", Scalar (Num (Int 9007199254740993)))])
       (Some ["a"]) dictionary_list []
     = Ok (DictList [mkrow [("a", Num (Float64 9007199254740992))]]).
Proof. split; vm_compute; reflexivity. Qed.

(** The rows of an operation table of numbers hold floats: the id 7 is
    7.0, and the factor of the target year 2030 is read under the label
    [co2e_2030.0]. *)
Example numeric_operation_rows :
  getitem numeric_operation numeric_row "operation_id" = Ok (Num (Float64 7))
  /\ lookup_fuel_emission_factors env_float_2030 numeric_operation numeric_row
       numeric_key_fuel
     = Ok (Num (Float 1), Num (Float 2)).
Proof. split; vm_compute; reflexivity. Qed.

Example update_keeps_position :
  dict_update a1_by overlay_a3 = [("a", Scalar (Num (Int 3))); ("b", Scalar (Str "y"))].
Proof. reflexivity. Qed.

Example comparator_lookup :
  lookup (IsDataFrame two_rows) (IsDict [("a", Tuple [Str ">="; Num (Float 1.5)])])
    (Some ["b"]) dictionary_list []
  = Ok (DictList [mkrow [("b", Str "y")]]).
Proof. vm_compute. reflexivity. Qed.

Example column_override_lookup :
  lookup (IsDataFrame two_rows)
    (IsDict [("low", Tuple [Str "a"; Str ">"; Num (Int 0)]);
             ("high", Tuple [Str "a"; Str "<"; Num (Int 2)])])
    None dictionary_list []
  = Ok (DictList [mkrow [("a", Num (Int 1)); ("b", Str "x")]]).
Proof. vm_compute. reflexivity. Qed.

Example numbers_against_string :
  _perform_lookup (IsDataFrame two_rows) (IsDict [("a", Tuple [Str ">"; Str "k"])])
    None dictionary_list
  = Raise TypeError.
Proof. vm_compute. reflexivity. Qed.

(** ** The exception monad *)

Lemma bind_Ok {A B} (m : res A) (k : A -> res B) (b : B) :
  bind m k = Ok b -> exists a, m = Ok a /\ k a = Ok b.
Proof. destruct m as [a|e]; simpl; [eauto | discriminate]. Qed.

Lemma bind_Raise {A B} (m : res A) (k : A -> res B) (e : exn) :
  bind m k = Raise e -> m = Raise e \/ exists a, m = Ok a /\ k a = Raise e.
Proof. destruct m as [a|e']; simpl; intros H; [right; eauto | left; congruence]. Qed.


Lemma mapM_In {A B} (f : A -> res B) (l : list A) (ys : list B) (y : B) :
  mapM f l = Ok ys -> In y ys -> exists x, In x l /\ f x = Ok y.
Proof.
  revert ys. induction l as [|x l IH]; simpl; intros ys H Hy.
  - injection H as <-. destruct Hy.
  - apply bind_Ok in H as (y0 & Hx & H). apply bind_Ok in H as (ys0 & Hl & H).
    injection H as <-. destruct Hy as [<-|Hy].
    + exists x. split; [left; reflexivity | exact Hx].
    + destruct (IH ys0 Hl Hy) as (x' & Hin & Hf). exists x'. split; [right|]; assumption.
Qed.

(** ** Numbers *)

Lemma prim2sf_nan (f : float) : is_nan f = true -> Prim2SF f = S754_nan.
Proof. intros H. unfold Prim2SF. rewrite H. reflexivity. Qed.

Lemma prim2sf_not_nan (f : float) : is_nan f = false -> Prim2SF f <> S754_nan.
Proof.
  intros H. unfold Prim2SF. rewrite H.
  destruct (is_zero f); [discriminate|]. destruct (is_infinity f); [discriminate|].
  destruct (Z.frexp f) as [r e]. destruct (shr_fexp _ _ _ _ _) as [shr e'].
  destruct (shr_m shr); discriminate.
Qed.

Lemma cmp_float_nan_l (f g : float) : is_nan f = true -> cmp_float f g = None.
Proof.
  intros H. unfold cmp_float. rewrite FloatAxioms.compare_spec, (prim2sf_nan f H). reflexivity.
Qed.


Lemma cmp_float_refl (f : float) : is_nan f = false -> cmp_float f f = Some Eq.
Proof.
  intros H. apply prim2sf_not_nan in H. unfold cmp_float.
  rewrite FloatAxioms.compare_spec. destruct (Prim2SF f) as [s|s| |s m e]; simpl.
  - reflexivity.
  - destruct s; reflexivity.
  - contradiction.
  - rewrite Z.compare_refl, Pos.compare_cont_refl. destruct s; reflexivity.
Qed.

Lemma cmp_float_eq (f g : float) : cmp_float f g = Some Eq -> PrimFloat.eqb f g = true.
Proof.
  unfold cmp_float. rewrite FloatAxioms.compare_spec, FloatAxioms.eqb_spec. unfold SFeqb.
  destruct (SFcompare (Prim2SF f) (Prim2SF g)) as [[]|]; simpl; congruence.
Qed.

Lemma cmp_Z_float_nan (z : Z) (f : float) : is_nan f = true -> cmp_Z_float z f = None.
Proof. intros H. unfold cmp_Z_float. rewrite (prim2sf_nan f H). reflexivity. Qed.

Lemma num_cmp_nan_l (n v : number) : pd_isna n = true -> num_cmp n v = None.
Proof.
  destruct n as [z|f|z|f]; simpl; try discriminate; intros H; destruct v as [y|g|y|g]; simpl;
    rewrite ?(cmp_Z_float_nan _ f H), ?(cmp_float_nan_l f _ H); reflexivity.
Qed.


Lemma num_cmp_refl (n : number) : pd_isna n = false -> num_cmp n n = Some Eq.
Proof.
  destruct n as [z|f|z|f]; simpl; intros H;
    rewrite ?Z.compare_refl, ?(cmp_float_refl f H); reflexivity.
Qed.

(** A value equals itself, unless it is missing. *)
Lemma py_eq_refl (v : value) : py_eq v v = negb (is_missing v).
Proof.
  destruct v as [n|s]; simpl; [|apply String.eqb_refl].
  destruct (pd_isna n) eqn:H.
  - rewrite (num_cmp_nan_l n n H). reflexivity.
  - rewrite (num_cmp_refl n H). reflexivity.
Qed.

(** ** Masks *)






(** ** Exceptions that leave [_perform_lookup] *)

Lemma mapM_Raise {A B} (f : A -> res B) (l : list A) (e : exn) :
  mapM f l = Raise e -> exists x, In x l /\ f x = Raise e.
Proof.
  induction l as [|x l IH]; simpl; [discriminate|]. intros H.
  apply bind_Raise in H as [H|(y & _ & H)].
  - exists x. split; [left; reflexivity | exact H].
  - apply bind_Raise in H as [H|(ys & _ & H)]; [|discriminate].
    destruct (IH H) as (x' & Hin & Hx'). exists x'. split; [right|]; assumption.
Qed.

Lemma series_Raise (df : DataFrame) (c : string) (e : exn) :
  series df c = Raise e -> e = KeyError.
Proof. unfold series. destruct (has_column df c); congruence. Qed.

Lemma series_at_Raise (df : DataFrame) (col : value) (e : exn) :
  series_at df col = Raise e -> e = KeyError.
Proof. destruct col as [n|c]; simpl; [congruence | apply series_Raise]. Qed.

Lemma py_order_Raise test (a b : value) (e : exn) :
  py_order test a b = Raise e -> e = TypeError.
Proof. destruct a, b; simpl; congruence. Qed.

Lemma series_order_Raise test (s : Series) (v : value) (e : exn) :
  series_order (py_order test) s v = Raise e -> e = TypeError.
Proof.
  unfold series_order. destruct (is_missing v); [discriminate|].
  destruct (numeric_series s && is_str v); [congruence|]. intros H.
  apply mapM_Raise in H as (x & _ & H).
  destruct (is_missing x); [discriminate|]. apply py_order_Raise in H. exact H.
Qed.

Lemma compare_series_Raise (df : DataFrame) (col v : value) test (e : exn) :
  (let! s := series_at df col in series_order (py_order test) s v) = Raise e ->
  caught e = true.
Proof.
  intros H. apply bind_Raise in H as [H|(s & _ & H)].
  - apply series_at_Raise in H as ->. reflexivity.
  - apply series_order_Raise in H as ->. reflexivity.
Qed.

Lemma apply_operator_Raise (df : DataFrame) (col operator v : value) (e : exn) :
  apply_operator df col operator v = Raise e -> caught e = true.
Proof.
  unfold apply_operator, py_gt, py_lt, py_ge, py_le.
  repeat match goal with
         | |- context [if ?b then _ else _] => destruct b
         end;
    try apply compare_series_Raise.
  - intros H. apply bind_Raise in H as [H|(s & _ & H)]; [|discriminate].
    apply series_at_Raise in H as ->. reflexivity.
  - intros [= <-]. reflexivity.
Qed.

Lemma criteria_mask_Raise (df : DataFrame) (col : string) (c : criterion) (e : exn) :
  criteria_mask df col c = Raise e -> caught e = true.
Proof.
  destruct c as [v|items]; simpl.
  - intros H. apply bind_Raise in H as [H|(s & _ & H)]; [|discriminate].
    apply series_Raise in H as ->. reflexivity.
  - destruct items as [|a [|b [|c [|d items]]]];
      try (intros [= <-]; reflexivity); apply apply_operator_Raise.
Qed.

Lemma apply_criteria_Raise (df : DataFrame) (crit : criteria) (mask : list bool) (e : exn) :
  apply_criteria df crit mask = Raise e -> caught e = true.
Proof.
  revert mask. induction crit as [|[col c] crit IH]; simpl; intros mask H; [discriminate|].
  apply bind_Raise in H as [H|(m & _ & H)].
  - apply criteria_mask_Raise in H. exact H.
  - apply IH in H. exact H.
Qed.

Lemma getitem_Raise (df : DataFrame) (r : gmap string value) (key : string) (e : exn) :
  getitem df r key = Raise e -> e = KeyError.
Proof. unfold getitem. destruct (has_column df key); congruence. Qed.

Lemma project_row_Raise (df : DataFrame) (r : gmap string value) (cols : list string)
    (e : exn) :
  project_row df r cols = Raise e -> e = KeyError.
Proof.
  unfold project_row. intros H.
  apply bind_Raise in H as [H|(kvs & _ & H)]; [|discriminate].
  apply mapM_Raise in H as (key & _ & H).
  apply bind_Raise in H as [H|(v & _ & H)]; [|discriminate].
  apply getitem_Raise in H. exact H.
Qed.

Lemma perform_lookup_Raise (df : table_arg) (crit : criteria_arg)
    (oc : option (list string)) (fmt : string) (e : exn) :
  _perform_lookup df crit oc fmt = Raise e -> caught e = true.
Proof.
  unfold _perform_lookup.
  destruct df as [df|]; [|intros [= <-]; reflexivity].
  destruct crit as [crit|]; [|intros [= <-]; reflexivity].
  intros H. apply bind_Raise in H as [H|(mask & _ & H)].
  { apply apply_criteria_Raise in H. exact H. }
  destruct (String.eqb fmt "dataframe").
  { destruct oc as [cols|]; [|discriminate].
    apply bind_Raise in H as [H|(out & _ & H)]; [|discriminate].
    unfold project_frame in H.
    destruct (forallb _ cols); [discriminate|]. injection H as <-. reflexivity. }
  destruct (String.eqb fmt "dictionary_list"); [|injection H as <-; reflexivity].
  apply bind_Raise in H as [H|(l & _ & H)]; [|discriminate].
  apply mapM_Raise in H as (r & _ & H).
  destruct oc as [cols|]; [|discriminate].
  apply project_row_Raise in H as ->. reflexivity.
Qed.

Lemma perform_lookup_Ok_args (df : table_arg) (crit : criteria_arg)
    (oc : option (list string)) (fmt : string) (result : lookup_result) :
  _perform_lookup df crit oc fmt = Ok result ->
  (exists d, df = IsDataFrame d) /\ (exists c, crit = IsDict c).
Proof.
  destruct df as [d|], crit as [c|]; simpl; try discriminate. eauto.
Qed.

Lemma truth_Raise (result : lookup_result) (e : exn) :
  truth result = Raise e -> e = ValueError.
Proof. destruct result; simpl; congruence. Qed.

Lemma try_fallbacks_Raise (df : table_arg) (c : criteria) (oc : option (list string))
    (fmt : string) (fb : list criteria) (e : exn) :
  try_fallbacks df (IsDict c) oc fmt fb = Raise e -> caught e = true.
Proof.
  induction fb as [|u fb IH]; simpl; [discriminate|]. intros H.
  apply bind_Raise in H as [H|(result & _ & H)].
  { apply perform_lookup_Raise in H. exact H. }
  apply bind_Raise in H as [H|(t & _ & H)].
  { apply truth_Raise in H as ->. reflexivity. }
  destruct t; [discriminate | exact (IH H)].
Qed.

Lemma lookup_try_Raise (df : table_arg) (crit : criteria_arg) (oc : option (list string))
    (fmt : string) (fb : list criteria) (e : exn) :
  lookup_try df crit oc fmt fb = Raise e -> caught e = true.
Proof.
  unfold lookup_try. intros H.
  apply bind_Raise in H as [H|(result & Hres & H)].
  { apply perform_lookup_Raise in H. exact H. }
  apply bind_Raise in H as [H|(t & _ & H)].
  { apply truth_Raise in H as ->. reflexivity. }
  destruct t; [discriminate|].
  apply perform_lookup_Ok_args in Hres as [_ [c ->]].
  apply try_fallbacks_Raise in H. exact H.
Qed.

(** Whatever is raised inside the [try] block is turned into the empty
    result. *)
Lemma lookup_catches (df : table_arg) (crit : criteria_arg) (oc : option (list string))
    (fmt : string) (fb : list criteria) (e : exn) :
  lookup_try df crit oc fmt fb = Raise e ->
  lookup df crit oc fmt fb = Ok (empty_result fmt).
Proof.
  intros H. unfold lookup. rewrite H.
  rewrite (lookup_try_Raise _ _ _ _ _ _ H). reflexivity.
Qed.

Lemma lookup_never_raises (df : table_arg) (crit : criteria_arg)
    (oc : option (list string)) (fmt : string) (fb : list criteria) :
  exists result, lookup df crit oc fmt fb = Ok result.
Proof.
  destruct (lookup_try df crit oc fmt fb) as [result|e] eqn:H.
  - exists result. unfold lookup. rewrite H. reflexivity.
  - exists (empty_result fmt). apply (lookup_catches _ _ _ _ _ e). exact H.
Qed.

(** ** Failures of predicate evaluation *)

Lemma unknown_column_operator (df : DataFrame) (col : string) (operator v : value) :
  has_column df col = false ->
  exists e, apply_operator df (Str col) operator v = Raise e.
Proof.
  intros Hcol. unfold apply_operator. simpl. unfold series. rewrite Hcol. simpl.
  repeat match goal with
         | |- context [if ?b then _ else _] => destruct b
         end; eauto.
Qed.

Lemma invalid_operator_raises (df : DataFrame) (col operator v : value) :
  valid_operator operator = false ->
  apply_operator df col operator v = Raise ValueError.
Proof.
  unfold valid_operator, apply_operator. simpl. intros H.
  repeat match goal with
         | |- context [if ?b then _ else _] => destruct b; try discriminate H
         end.
  reflexivity.
Qed.

Lemma predicate_failure_raises (df : DataFrame) (col : string) (c : criterion) :
  predicate_failure df col c -> exists e, criteria_mask df col c = Raise e.
Proof.
  intros [col' v H|col' operator v H|key col' operator v H
         |col' operator v H|key col' operator v H|col' items H2 H3]; simpl.
  - unfold series. rewrite H. simpl. eauto.
  - apply unknown_column_operator. exact H.
  - apply unknown_column_operator. exact H.
  - rewrite invalid_operator_raises by exact H. eauto.
  - rewrite invalid_operator_raises by exact H. eauto.
  - destruct items as [|a [|b [|c' [|d items]]]]; simpl in *; eauto; congruence.
Qed.

Lemma failing_criterion_raises (df : DataFrame) (crit : criteria) (col : string)
    (c : criterion) (mask : list bool) :
  In (col, c) crit -> predicate_failure df col c ->
  exists e, apply_criteria df crit mask = Raise e.
Proof.
  intros Hin Hfail. revert mask.
  induction crit as [|[col' c'] crit IH]; intros mask; [destruct Hin|].
  simpl. destruct Hin as [[= -> ->]|Hin].
  - destruct (predicate_failure_raises _ _ _ Hfail) as [e ->]. simpl. eauto.
  - destruct (criteria_mask df col' c') as [m|e]; simpl; [apply IH; exact Hin | eauto].
Qed.

(** C4: [lookup] never raises; whatever is raised while it evaluates the
    criteria is turned into the empty result of the requested format, and
    in particular a criterion on an unknown column, with an invalid
    comparator token or with a tuple of a wrong length gives the empty
    result. *)
Theorem lookup_failure_gives_empty (df : table_arg) (crit : criteria_arg)
    (output_columns : option (list string)) (output_format : string)
    (fallback_criteria : list criteria) :
  (exists result,
     lookup df crit output_columns output_format fallback_criteria = Ok result)
  /\ (forall e,
        lookup_try df crit output_columns output_format fallback_criteria = Raise e ->
        lookup df crit output_columns output_format fallback_criteria
        = Ok (empty_result output_format))
  /\ (forall d c col cr,
        df = IsDataFrame d -> crit = IsDict c ->
        In (col, cr) c -> predicate_failure d col cr ->
        lookup df crit output_columns output_format fallback_criteria
        = Ok (empty_result output_format)).
Proof.
  split; [apply lookup_never_raises|]. split; [apply lookup_catches|].
  intros d c col cr -> -> Hin Hfail.
  destruct (failing_criterion_raises d c col cr (repeat true (length (rows d))) Hin Hfail)
    as [e He].
  apply (lookup_catches _ _ _ _ _ e).
  unfold lookup_try, _perform_lookup. rewrite He. reflexivity.
Qed.

(** ** Fallback *)

Lemma dict_set_keys (d : criteria) (k : string) (c : criterion) :
  keys (dict_set d k c) = if bool_decide (k ∈ keys d) then keys d else keys d ++ [k].
Proof.
  induction d as [|[k' c'] d IH]; simpl; [reflexivity|].
  destruct (String.eqb_spec k' k) as [->|Hne]; simpl.
  - rewrite bool_decide_eq_true_2 by (left). reflexivity.
  - rewrite IH. fold (keys d).
    destruct (bool_decide (k ∈ keys d)) eqn:Hin.
    + apply bool_decide_eq_true_1 in Hin.
      rewrite bool_decide_eq_true_2 by (right; exact Hin). reflexivity.
    + apply bool_decide_eq_false_1 in Hin.
      rewrite bool_decide_eq_false_2; [reflexivity|].
      rewrite not_elem_of_cons. split; [congruence | exact Hin].
Qed.

Lemma dict_set_NoDup_keys (d : criteria) (k : string) (c : criterion) :
  NoDup (keys d) -> NoDup (keys (dict_set d k c)).
Proof.
  intros Hd. rewrite dict_set_keys. destruct (bool_decide (k ∈ keys d)) eqn:Hin; [exact Hd|].
  apply bool_decide_eq_false_1 in Hin. apply NoDup_app. split; [exact Hd|].
  split; [|apply NoDup_singleton].
  intros x Hx Hxk. apply list_elem_of_singleton in Hxk as ->. contradiction.
Qed.

Lemma dict_set_present (d : list (string * criterion)) (k : string) (c : criterion) :
  NoDup (keys d) -> k ∈ keys d ->
  dict_set d k c = map (fun kc => if String.eqb kc.1 k then (kc.1, c) else kc) d.
Proof.
  induction d as [|[k' c'] d IH]; intros Hd Hk; [inversion Hk|].
  change (keys ((k', c') :: d)) with (k' :: keys d) in Hd, Hk.
  apply NoDup_cons in Hd as [Hk' Hd]. cbn [dict_set map fst].
  destruct (String.eqb_spec k' k) as [->|Hne].
  - f_equal. clear IH Hk Hd. induction d as [|[k0 c0] d IH]; [reflexivity|].
    change (keys ((k0, c0) :: d)) with (k0 :: keys d) in Hk'.
    apply not_elem_of_cons in Hk' as [Hne Hk']. cbn [map fst].
    destruct (String.eqb_spec k0 k); [congruence|]. rewrite <- (IH Hk'). reflexivity.
  - f_equal. apply IH; [exact Hd|]. apply elem_of_cons in Hk as [Hk|Hk]; [congruence | exact Hk].
Qed.

Lemma dict_set_absent (d : list (string * criterion)) (k : string) (c : criterion) :
  k ∉ keys d -> dict_set d k c = d ++ [(k, c)].
Proof.
  induction d as [|[k' c'] d IH]; intros Hk; [reflexivity|].
  change (keys ((k', c') :: d)) with (k' :: keys d) in Hk.
  apply not_elem_of_cons in Hk as [Hne Hk]. cbn [dict_set].
  destruct (String.eqb_spec k' k); [congruence|]. rewrite (IH Hk). reflexivity.
Qed.

Lemma dict_get_absent (d : criteria) (k : string) : k ∉ keys d -> dict_get d k = None.
Proof.
  induction d as [|[k0 c0] d IH]; simpl; [reflexivity|]. intros Hk.
  apply not_elem_of_cons in Hk as [Hne Hk].
  destruct (String.eqb_spec k0 k); [congruence | apply IH; exact Hk].
Qed.

(** The update of the program is the merge of the specification. *)
Lemma dict_update_merge (crit F : list (string * criterion)) :
  NoDup (keys crit) -> NoDup (keys F) -> dict_update crit F = merge_onto crit F.
Proof.
  revert crit. induction F as [|[k c] F IH]; intros crit Hcrit HF.
  - unfold dict_update, merge_onto. cbn [fold_left List.filter dict_get default].
    rewrite app_nil_r. induction crit as [|[k c] crit IHc]; [reflexivity|].
    change (keys ((k, c) :: crit)) with (k :: keys crit) in Hcrit.
    apply NoDup_cons in Hcrit as [_ Hcrit]. cbn [map fst snd]. rewrite <- (IHc Hcrit).
    reflexivity.
  - change (keys ((k, c) :: F)) with (k :: keys F) in HF.
    apply NoDup_cons in HF as [Hk HF].
    change (dict_update crit ((k, c) :: F)) with (dict_update (dict_set crit k c) F).
    rewrite (IH _ (dict_set_NoDup_keys crit k c Hcrit) HF). unfold merge_onto.
    destruct (decide (k ∈ keys crit)) as [Hin|Hout].
    + rewrite (dict_set_present crit k c Hcrit Hin).
      assert (Hkeys : keys (map (fun kc : string * criterion =>
                                   if String.eqb kc.1 k then (kc.1, c) else kc) crit)
                      = keys crit).
      { unfold keys. rewrite map_map. apply map_ext. intros [k' c']. simpl.
        destruct (String.eqb k' k); reflexivity. }
      rewrite Hkeys, map_map. cbn [List.filter fst].
      rewrite (bool_decide_eq_true_2 _ Hin). cbn [negb]. f_equal.
      apply map_ext. intros [k' c']. cbn [fst snd dict_get].
      destruct (String.eqb_spec k' k) as [->|Hne]; cbn [fst snd].
      * rewrite String.eqb_refl, (dict_get_absent F k Hk). reflexivity.
      * destruct (String.eqb_spec k k'); [congruence | reflexivity].
    + rewrite (dict_set_absent crit k c Hout), map_app. cbn [map fst snd List.filter].
      rewrite (bool_decide_eq_false_2 _ Hout), (dict_get_absent F k Hk). cbn [negb default].
      rewrite <- app_assoc. cbn [app]. f_equal.
      * apply map_ext_in. intros [k' c'] Hkc. cbn [fst snd dict_get].
        destruct (String.eqb_spec k k') as [<-|Hne]; [|reflexivity].
        exfalso. apply Hout. apply list_elem_of_In.
        change k with (fst (k, c')). apply in_map. exact Hkc.
      * f_equal. apply filter_ext_in. intros [k' c'] Hkc. cbn [fst]. f_equal.
        unfold keys. rewrite map_app. cbn [map fst].
        apply bool_decide_ext. rewrite elem_of_app, list_elem_of_singleton.
        split; [|tauto]. intros [H| ->]; [exact H|].
        exfalso. apply Hk. apply list_elem_of_In.
        change k with (fst (k, c')). apply in_map. exact Hkc.
Qed.

(** The loop over the fallback criteria returns the rows of the first
    attempt that finds some, and is left by the first attempt that
    fails. *)
Lemma try_fallbacks_first_attempt (df : table_arg) (crit : criteria)
    (oc : option (list string)) (fb : list criteria) :
  match try_fallbacks df (IsDict crit) oc dictionary_list fb with
  | Ok result => result = DictList (first_attempt df oc (map (dict_update crit) fb))
  | Raise _ => first_attempt df oc (map (dict_update crit) fb) = []
  end.
Proof.
  induction fb as [|u fb IH]; cbn [try_fallbacks copy_update bind map first_attempt].
  - reflexivity.
  - destruct (_perform_lookup df (IsDict (dict_update crit u)) oc dictionary_list)
      as [[out|[|d l]]|e]; cbn [bind truth]; try reflexivity. exact IH.
Qed.

(** C2, amended: in the list format, when the primary criteria match no
    row, [lookup] returns what the attempts yield, each attempt being
    the overlay merged onto the original criteria and the attempts being
    made in order: the rows of the first attempt that matches some row,
    whatever follows it; the empty list when an attempt fails before any
    has matched, or when every attempt matches no row. *)
Theorem lookup_fallback_order (df : table_arg) (crit : criteria)
    (output_columns : option (list string)) (fallback_criteria : list criteria) :
  NoDup (keys crit) ->
  Forall (fun F => NoDup (keys F)) fallback_criteria ->
  _perform_lookup df (IsDict crit) output_columns dictionary_list = Ok (DictList []) ->
  lookup df (IsDict crit) output_columns dictionary_list fallback_criteria
  = Ok (DictList (first_attempt df output_columns
                    (map (merge_onto crit) fallback_criteria))).
Proof.
  intros Hcrit Hfb Hprimary.
  assert (Hmerge : map (dict_update crit) fallback_criteria
                   = map (merge_onto crit) fallback_criteria).
  { apply map_ext_in. intros F HF. rewrite Forall_forall in Hfb.
    apply dict_update_merge; [exact Hcrit|]. apply Hfb. apply list_elem_of_In. exact HF. }
  rewrite <- Hmerge. unfold lookup, lookup_try. rewrite Hprimary. cbn [bind truth].
  pose proof (try_fallbacks_first_attempt df crit output_columns fallback_criteria) as H.
  destruct (try_fallbacks df (IsDict crit) output_columns dictionary_list fallback_criteria)
    as [result|e] eqn:Hloop.
  - rewrite H. reflexivity.
  - rewrite (try_fallbacks_Raise _ _ _ _ _ _ Hloop), H. reflexivity.
Qed.

(** C2, as the claim states it, fails: the primary criteria match no row
    and the second overlay, merged onto them, matches a row, but the
    first overlay fails and the call returns the empty list. *)
Lemma lookup_failed_attempt_hides_match :
  _perform_lookup (IsDataFrame two_rows) (IsDict a1_by) None dictionary_list
  = Ok (DictList [])
  /\ _perform_lookup (IsDataFrame two_rows) (IsDict (merge_onto a1_by overlay_bx)) None
       dictionary_list
     = Ok (DictList [mkrow [("a", Num (Int 1)); ("b", Str "x")]])
  /\ lookup (IsDataFrame two_rows) (IsDict a1_by) None dictionary_list
       [overlay_broken; overlay_bx]
     = Ok (DictList []).
Proof. repeat split; vm_compute; reflexivity. Qed.

(** ** The DataFrame format *)

Lemma perform_lookup_dataframe (df : table_arg) (crit : criteria_arg)
    (oc : option (list string)) (result : lookup_result) :
  _perform_lookup df crit oc "dataframe" = Ok result -> exists out, result = Frame out.
Proof.
  unfold _perform_lookup. destruct df as [df|]; [|discriminate].
  destruct crit as [crit|]; [|discriminate]. intros H.
  apply bind_Ok in H as (mask & _ & H).
  change (String.eqb "dataframe" "dataframe") with true in H.
  destruct oc as [cols|].
  - apply bind_Ok in H as (out & _ & H). injection H as <-. eauto.
  - injection H as <-. eauto.
Qed.

(** With [output_format='dataframe'] every call returns the empty
    DataFrame: the test [if result:] raises on a DataFrame and the
    [except] clause answers. *)
Lemma lookup_dataframe_empty (df : table_arg) (crit : criteria_arg)
    (oc : option (list string)) (fb : list criteria) :
  lookup df crit oc "dataframe" fb = Ok (Frame empty_frame).
Proof.
  destruct (lookup_try df crit oc "dataframe" fb) as [result|e] eqn:H.
  - unfold lookup_try in H. apply bind_Ok in H as (r & Hr & H).
    apply perform_lookup_dataframe in Hr as [out ->]. discriminate H.
  - apply lookup_catches in H. exact H.
Qed.

(** C3: on a table with a row where [a == 1], the matching pass finds
    that row, and [lookup(T, {'a': 1}, output_format='dataframe')]
    returns the empty DataFrame. *)
Theorem lookup_dataframe_loses_rows :
  _perform_lookup (IsDataFrame two_rows) (IsDict [("a", Scalar (Num (Int 1)))]) None
    "dataframe"
  = Ok (Frame {| columns := ["a"; "b"];
                 rows := [mkrow [("a", Num (Int 1)); ("b", Str "x")]] |})
  /\ lookup (IsDataFrame two_rows) (IsDict [("a", Scalar (Num (Int 1)))]) None
       "dataframe" []
     = Ok (Frame empty_frame).
Proof. split; vm_compute; reflexivity. Qed.

(** ** Arguments of the wrong type *)

(** C5, as the claim states it, fails: a call with something that is not
    a DataFrame does not raise [TypeError]. *)
Lemma lookup_bad_table_no_TypeError :
  lookup NotDataFrame (IsDict []) None dictionary_list [] <> Raise TypeError.
Proof. vm_compute. discriminate. Qed.

(** C5, amended: with a table that is not a DataFrame or criteria that
    are not a dict, [_perform_lookup] raises [TypeError], and [lookup]
    catches it and returns the empty result of the requested format. *)
Theorem lookup_bad_argument (df : table_arg) (crit : criteria_arg)
    (output_columns : option (list string)) (output_format : string)
    (fallback_criteria : list criteria) :
  df = NotDataFrame \/ crit = NotDict ->
  _perform_lookup df crit output_columns output_format = Raise TypeError
  /\ lookup df crit output_columns output_format fallback_criteria
     = Ok (empty_result output_format).
Proof.
  intros Hbad.
  assert (H : _perform_lookup df crit output_columns output_format = Raise TypeError).
  { destruct Hbad as [-> | ->]; [reflexivity|]. destruct df; reflexivity. }
  split; [exact H|].
  apply (lookup_catches _ _ _ _ _ TypeError). unfold lookup_try. rewrite H. reflexivity.
Qed.

(** ** The aggregator *)

Section Aggregator.
Variable env : Env.
Variables (operation_data fuel_data refrigerant_gwp refrigerator_data
           vehicle_interventions vehicle_interventions_tru farm_emissions : DataFrame).

Lemma stage3_total_is_sum (row : gmap string value) (s : Secondary) (n : Inputs)
    (rec : EmissionRecord) :
  stage3 operation_data row s n = Ok rec ->
  sum_of_subtotals rec = Ok (total_emissions rec).
Proof.
  unfold stage3. intros H.
  repeat (apply bind_Ok in H as (? & ? & H)).
  injection H as <-. unfold sum_of_subtotals. cbn [fuel_emissions vehicle_emissions
    refrigerant_emissions livestock_emissions fertilizer_emissions waste_emissions
    tru_emissions total_emissions].
  repeat match goal with
         | Heq : py_add ?a ?b = Ok _ |- context [py_add ?a ?b] => rewrite Heq; cbn [bind]
         end.
  reflexivity.
Qed.

(** C6, amended: in every record of the returned table,
    [total_emissions] is the value of the sum of the seven subtotals,
    fuel + vehicle + refrigerant + livestock + fertilizer + waste + TRU,
    which adds up without an error; the total equals that sum ([==])
    exactly when it is not NaN. *)
Theorem total_is_sum_of_subtotals (records : list EmissionRecord) (rec : EmissionRecord) :
  calculate_annual_emissions env operation_data fuel_data refrigerant_gwp
    refrigerator_data vehicle_interventions vehicle_interventions_tru farm_emissions
  = Ok records ->
  In rec records ->
  exists sum,
    sum_of_subtotals rec = Ok sum
    /\ total_emissions rec = sum
    /\ py_eq (total_emissions rec) sum = negb (is_missing (total_emissions rec)).
Proof.
  unfold calculate_annual_emissions. intros Hrun Hin.
  destruct (mapM_In _ _ _ _ Hrun Hin) as (row & _ & Hrow).
  unfold emissions_of_row in Hrow.
  apply bind_Ok in Hrow as (s & _ & Hrow). apply bind_Ok in Hrow as (n & _ & Hrow).
  exists (total_emissions rec).
  split; [exact (stage3_total_is_sum row s n rec Hrow)|].
  split; [reflexivity | apply py_eq_refl].
Qed.

(** ** Numeric normalization *)

Lemma numeric_or_zero_not_nan (v : value) : pd_isna (numeric_or_zero env v) = false.
Proof.
  unfold numeric_or_zero. destruct (pd_isna (to_numeric env v)) eqn:H; [reflexivity | exact H].
Qed.

Lemma numeric_or_zero_fails (v : value) :
  fails_coercion env v -> numeric_or_zero env v = Int 0.
Proof.
  unfold numeric_or_zero. destruct v as [n|s]; simpl; intros H; rewrite H; reflexivity.
Qed.

(** The normalization of the program is the one of the specification. *)
Lemma numeric_or_zero_coerced (v : value) :
  numeric_or_zero env v = coerced_or_zero env v.
Proof.
  unfold numeric_or_zero, coerced_or_zero, coerced, to_numeric.
  destruct v as [n|s].
  - destruct (pd_isna n); reflexivity.
  - destruct (parse_numeric env s) as [n|]; [|reflexivity].
    simpl. destruct (pd_isna n); reflexivity.
Qed.

(** C9: on a record that carries the nine numeric fields, stage 2
    returns, without raising, the nine fields each coerced to a number: a
    number that is not missing is kept as it is, a numeric string
    becomes the number it reads as, and what fails coercion (a string
    that is not numeric, a missing value) becomes 0; no field is NaN
    afterwards. *)
Theorem numeric_normalization (row : gmap string value) :
  Forall (fun field => has_column operation_data field = true) numeric_fields ->
  stage2 env operation_data row
  = Ok {| fuel_amount := coerced_or_zero env (item operation_data row "fuel_amount");
          refrigerant_charge :=
            coerced_or_zero env (item operation_data row "refrigerant_charge");
          number_of_refrigerators :=
            coerced_or_zero env (item operation_data row "number_of_refrigerators");
          operating_distance :=
            coerced_or_zero env (item operation_data row "operating_distance");
          tru_number_of_vehicle_units :=
            coerced_or_zero env (item operation_data row "tru_number_of_vehicle_units");
          tru_refrigerant_charge :=
            coerced_or_zero env (item operation_data row "tru_refrigerant_charge");
          livestock_count := coerced_or_zero env (item operation_data row "livestock_count");
          fertilizer_amount :=
            coerced_or_zero env (item operation_data row "fertilizer_amount");
          waste_amount := coerced_or_zero env (item operation_data row "waste_amount") |}
  /\ (forall v n, coerced env v = Some n -> numeric_or_zero env v = n)
  /\ (forall v, fails_coercion env v -> numeric_or_zero env v = Int 0)
  /\ (forall v, pd_isna (numeric_or_zero env v) = false).
Proof.
  intros Hfields.
  split; [|split; [|split; [apply numeric_or_zero_fails | apply numeric_or_zero_not_nan]]].
  - unfold numeric_fields in Hfields.
    repeat match goal with
           | H : Forall _ (_ :: _) |- _ => apply Forall_cons in H as [? H]
           end.
    unfold stage2, numeric_field, getitem.
    repeat match goal with
           | Hc : has_column _ _ = true |- _ => rewrite Hc; clear Hc
           end.
    cbn [bind]. rewrite !numeric_or_zero_coerced. reflexivity.
  - intros v n H. rewrite numeric_or_zero_coerced. unfold coerced_or_zero. rewrite H.
    reflexivity.
Qed.
End Aggregator.

(** ** The result of a lookup in the list format *)

Lemma perform_lookup_list (df : table_arg) (crit : criteria_arg)
    (oc : option (list string)) (result : lookup_result) :
  _perform_lookup df crit oc dictionary_list = Ok result -> exists l, result = DictList l.
Proof.
  unfold _perform_lookup. destruct df as [df|]; [|discriminate].
  destruct crit as [crit|]; [|discriminate]. intros H.
  apply bind_Ok in H as (mask & _ & H).
  change (String.eqb dictionary_list "dataframe") with false in H.
  change (String.eqb dictionary_list "dictionary_list") with true in H.
  cbv iota in H. apply bind_Ok in H as (l & _ & H). injection H as <-. eauto.
Qed.

Lemma try_fallbacks_list (df : table_arg) (crit : criteria_arg)
    (oc : option (list string)) (fb : list criteria) (result : lookup_result) :
  try_fallbacks df crit oc dictionary_list fb = Ok result -> exists l, result = DictList l.
Proof.
  induction fb as [|u fb IH]; simpl.
  - intros [= <-]. exists []. reflexivity.
  - intros H. apply bind_Ok in H as (c & _ & H). apply bind_Ok in H as (r & Hr & H).
    apply bind_Ok in H as (t & _ & H). destruct t.
    + injection H as <-. apply perform_lookup_list in Hr. exact Hr.
    + apply IH. exact H.
Qed.

Lemma lookup_list (df : table_arg) (crit : criteria_arg) (oc : option (list string))
    (fb : list criteria) :
  exists l, lookup df crit oc dictionary_list fb = Ok (DictList l).
Proof.
  unfold lookup. destruct (lookup_try df crit oc dictionary_list fb) as [result|e] eqn:H.
  - unfold lookup_try in H. apply bind_Ok in H as (r & Hr & H).
    apply bind_Ok in H as (t & _ & H). destruct t.
    + injection H as <-. apply perform_lookup_list in Hr as [l ->]. eauto.
    + apply try_fallbacks_list in H as [l ->]. eauto.
  - rewrite (lookup_try_Raise _ _ _ _ _ _ H). exists []. reflexivity.
Qed.

Lemma first_get_or_zero_list (l : list (gmap string value)) (key : string) :
  exists v, first_get_or_zero (DictList l) key = Ok v.
Proof. destruct l as [|d l]; simpl; eauto. Qed.

(** ** The fuel emission factors *)


Section FuelFactors.
Variable env : Env.
Variables (operation_data fuel_data : DataFrame) (row : gmap string value).
Variable year : number.
Hypothesis year_read :
  getitem operation_data row "target_completion_year" = Ok (Num year).
Hypothesis same_year : integer year = Some (current_year env).


End FuelFactors.



(** ** Division by zero *)

Lemma cmp_Z_float_zero (f : float) :
  cmp_Z_float 0 f = Some Eq -> PrimFloat.eqb f 0 = true.
Proof.
  unfold cmp_Z_float. rewrite FloatAxioms.eqb_spec.
  destruct (Prim2SF f) as [neg|neg| |neg m e].
  - intros _. destruct neg; reflexivity.
  - destruct neg; discriminate.
  - discriminate.
  - intros H. exfalso.
    assert (Hv : (if neg then Z.neg m else Z.pos m) <> 0) by (destruct neg; discriminate).
    destruct e as [|p|p];
      match type of H with
      | Some (?a ?= ?b) = _ => assert (Heq : a = b) by (apply Z.compare_eq; congruence)
      end.
    + lia.
    + pose proof (Z.pow_pos_nonneg 2 (Z.pos p)). nia.
    + lia.
Qed.

(** A value equal to 0 is false in a condition. *)
Lemma py_eq_zero_false (v : value) : py_eq v zero = true -> py_bool v = false.
Proof.
  destruct v as [[z|f|z|f]|s]; simpl; [| | | |discriminate].
  - destruct (Z.compare_spec z 0); try discriminate. intros _. subst. reflexivity.
  - destruct (cmp_Z_float 0 f) as [c|] eqn:H; simpl; [|discriminate].
    destruct c; try discriminate. intros _. rewrite (cmp_Z_float_zero f H). reflexivity.
  - destruct (Z.compare_spec z 0); try discriminate. intros _. subst. reflexivity.
  - change (float_of_Z 0) with 0%float.
    destruct (cmp_float f 0) as [c|] eqn:H; [|discriminate].
    destruct c; try discriminate. intros _. rewrite (cmp_float_eq f 0 H). reflexivity.
Qed.

Create HintDb zdiv.

Lemma nzd_Ok {A} (a : A) : no_zero_division (Ok a).
Proof. discriminate. Qed.

Lemma nzd_bind {A B} (m : res A) (k : A -> res B) :
  no_zero_division m -> (forall a, no_zero_division (k a)) -> no_zero_division (bind m k).
Proof.
  intros Hm Hk H. apply bind_Raise in H as [H|(a & _ & H)]; [exact (Hm H) | exact (Hk a H)].
Qed.

Lemma nzd_if {A} (b : bool) (m1 m2 : res A) :
  no_zero_division m1 -> no_zero_division m2 -> no_zero_division (if b then m1 else m2).
Proof. destruct b; trivial. Qed.

Lemma nzd_to_float (n : number) : no_zero_division (to_float n).
Proof. destruct n; simpl; try destruct (is_infinity _); discriminate. Qed.

Lemma nzd_int64_of (n : number) (z : Z) : no_zero_division (int64_of n z).
Proof. unfold int64_of. destruct (_ || _); discriminate. Qed.

#[local] Hint Resolve nzd_Ok nzd_to_float nzd_int64_of : zdiv.
#[local] Hint Extern 1 (no_zero_division (Raise _)) => discriminate : zdiv.

Ltac nzd_steps :=
  repeat first [ solve [auto with zdiv] | apply nzd_bind; [|intros ?] | apply nzd_if ].

Lemma nzd_num_arith int_op float_op (a b : number) :
  no_zero_division (num_arith int_op float_op a b).
Proof.
  unfold num_arith. destruct (integer a), (integer b), (is_numpy a || is_numpy b); nzd_steps.
Qed.

Lemma nzd_num_add (a b : number) : no_zero_division (num_add a b).
Proof. apply nzd_num_arith. Qed.

Lemma nzd_num_mul (a b : number) : no_zero_division (num_mul a b).
Proof. apply nzd_num_arith. Qed.

Lemma nzd_float64_operand (a b : number) : no_zero_division (float64_operand a b).
Proof. unfold float64_operand. destruct (integer a), (integer b); nzd_steps. Qed.

#[local] Hint Resolve nzd_num_add nzd_num_mul nzd_float64_operand : zdiv.

Lemma nzd_py_add (a b : value) : no_zero_division (py_add a b).
Proof. unfold py_add. destruct a, b; nzd_steps. Qed.

Lemma nzd_py_mul (a b : value) : no_zero_division (py_mul a b).
Proof. unfold py_mul. destruct a as [[]|], b as [[]|]; nzd_steps. Qed.

(** A division raises [ZeroDivisionError] only by a divisor that is
    false in a condition. *)
Lemma nzd_py_truediv (a b : value) : py_bool b = true -> no_zero_division (py_truediv a b).
Proof.
  destruct a as [x|?], b as [y|?]; simpl; try discriminate.
  unfold num_truediv. destruct (num_is_zero y); [discriminate|]. intros _.
  destruct (is_numpy x || is_numpy y); [nzd_steps|].
  cbn [negb]. destruct (integer x), (integer y); try destruct (is_infinity _); nzd_steps.
Qed.

Lemma nzd_getitem (df : DataFrame) (r : gmap string value) (key : string) :
  no_zero_division (getitem df r key).
Proof. intros H. apply getitem_Raise in H. discriminate. Qed.

Lemma nzd_lookup (df : table_arg) (crit : criteria_arg) (oc : option (list string))
    (fmt : string) (fb : list criteria) :
  no_zero_division (lookup df crit oc fmt fb).
Proof. destruct (lookup_never_raises df crit oc fmt fb) as [r ->]. discriminate. Qed.

Lemma nzd_first_or_zero (result : lookup_result) (key : string) :
  no_zero_division (first_or_zero result key).
Proof.
  unfold no_zero_division, first_or_zero.
  destruct result as [df|[|d l]]; simpl; try discriminate.
  destruct (d !! key); discriminate.
Qed.

Lemma nzd_first_get_or_zero (result : lookup_result) (key : string) :
  no_zero_division (first_get_or_zero result key).
Proof.
  unfold no_zero_division, first_get_or_zero.
  destruct result as [df|[|d l]]; simpl; discriminate.
Qed.

#[local] Hint Resolve nzd_py_add nzd_py_mul nzd_getitem nzd_lookup nzd_first_or_zero
  nzd_first_get_or_zero : zdiv.

Lemma nzd_stage1 (env : Env) (operation_data : DataFrame) (row : gmap string value)
    (fuel_data refrigerant_gwp refrigerator_data vehicle_interventions
     vehicle_interventions_tru farm_emissions : DataFrame) :
  no_zero_division
    (stage1 env operation_data row fuel_data refrigerant_gwp refrigerator_data
       vehicle_interventions vehicle_interventions_tru farm_emissions).
Proof.
  unfold stage1, lookup_annual_leakage_rate, lookup_refrigerant_gwp_value,
    lookup_tru_annual_leakage_rate, lookup_tru_refrigerant_gwp_value, lookup_tru_data,
    lookup_emission_per_unit, lookup_vehicle_fuel_efficiency,
    lookup_fuel_emission_factors, fuel_mode_of_row.
  nzd_steps.
Qed.

Lemma nzd_stage2 (env : Env) (operation_data : DataFrame) (row : gmap string value) :
  no_zero_division (stage2 env operation_data row).
Proof. unfold stage2, numeric_field. nzd_steps. Qed.

Lemma nzd_stage3 (operation_data : DataFrame) (row : gmap string value)
    (s : Secondary) (n : Inputs) :
  no_zero_division (stage3 operation_data row s n).
Proof.
  unfold stage3, calc_fuel_emissions, calc_vehicle_emissions, calc_refrigerant_emissions,
    calc_tru_emissions.
  destruct (py_bool (vehicle_fuel_efficiency s)) eqn:Hguard;
    nzd_steps; apply nzd_py_truediv; try reflexivity; exact Hguard.
Qed.

(** No row raises [ZeroDivisionError]. *)
Lemma nzd_emissions_of_row (env : Env) (operation_data fuel_data refrigerant_gwp
    refrigerator_data vehicle_interventions vehicle_interventions_tru farm_emissions
    : DataFrame) (row : gmap string value) :
  no_zero_division
    (emissions_of_row env operation_data fuel_data refrigerant_gwp refrigerator_data
       vehicle_interventions vehicle_interventions_tru farm_emissions row).
Proof.
  unfold emissions_of_row. apply nzd_bind; [apply nzd_stage1|]. intros s.
  apply nzd_bind; [apply nzd_stage2 | intros n; apply nzd_stage3].
Qed.

(** C8: when the vehicle fuel efficiency that stage 1 resolved is 0, the
    vehicle subtotal evaluates to 0 whatever the operating distance and
    the fuel factors are, the row does not raise [ZeroDivisionError], and
    the record it produces has [vehicle_emissions] 0. *)
Theorem zero_efficiency_guard (env : Env) (operation_data fuel_data refrigerant_gwp
    refrigerator_data vehicle_interventions vehicle_interventions_tru farm_emissions
    : DataFrame) (row : gmap string value) (s : Secondary) (n : Inputs) :
  stage1 env operation_data row fuel_data refrigerant_gwp refrigerator_data
    vehicle_interventions vehicle_interventions_tru farm_emissions = Ok s ->
  stage2 env operation_data row = Ok n ->
  py_eq (vehicle_fuel_efficiency s) zero = true ->
  calc_vehicle_emissions s n = Ok zero
  /\ emissions_of_row env operation_data fuel_data refrigerant_gwp refrigerator_data
       vehicle_interventions vehicle_interventions_tru farm_emissions row
     <> Raise ZeroDivisionError
  /\ (forall rec,
        emissions_of_row env operation_data fuel_data refrigerant_gwp refrigerator_data
          vehicle_interventions vehicle_interventions_tru farm_emissions row = Ok rec ->
        vehicle_emissions rec = zero).
Proof.
  intros Hs Hn Hzero.
  assert (Hvehicle : calc_vehicle_emissions s n = Ok zero).
  { unfold calc_vehicle_emissions. rewrite (py_eq_zero_false _ Hzero). reflexivity. }
  split; [exact Hvehicle|]. split; [apply nzd_emissions_of_row|].
  intros rec H. unfold emissions_of_row in H. rewrite Hs, Hn in H. cbn [bind] in H.
  unfold stage3 in H. rewrite Hvehicle in H.
  repeat (apply bind_Ok in H as (? & ? & H)).
  injection H as <-. cbn [vehicle_emissions]. congruence.
Qed.

(** ** Worked examples *)

(** C10: with [farm_emissions] holding the single row (Cattle, 2.5),
    every other reference table without rows, and one operational record
    with ten cattle and every other cell empty, the run returns exactly
    one record: livestock emissions 25.0, the six other subtotals 0,
    total 25.0.  This holds whatever the current year is. *)
Theorem cattle_example (env : Env) :
  calculate_annual_emissions env cattle_operation no_fuel no_gwp no_refrigerator
    no_vehicle no_tru cattle_farm
  = Ok [cattle_record]
  /\ livestock_emissions cattle_record = Num (Float 25)
  /\ Forall (fun subtotal => py_eq (subtotal cattle_record) zero = true)
       [fuel_emissions; vehicle_emissions; refrigerant_emissions; fertilizer_emissions;
        waste_emissions; tru_emissions]
  /\ total_emissions cattle_record = Num (Float 25).
Proof.
  destruct env as [format parse year].
  split; [vm_compute; reflexivity|].
  split; [reflexivity|]. split; [|reflexivity].
  repeat constructor.
Qed.

(** ** The theorems at the sample data *)


Lemma lookup_fallback_order_witness :
  NoDup (keys a1_by)
  /\ Forall (fun F => NoDup (keys F)) [overlay_a3; overlay_bx; overlay_broken]
  /\ _perform_lookup (IsDataFrame two_rows) (IsDict a1_by) None dictionary_list
     = Ok (DictList [])
  /\ merge_onto a1_by overlay_bx = [("a", Scalar (Num (Int 1))); ("b", Scalar (Str "x"))]
  /\ lookup (IsDataFrame two_rows) (IsDict a1_by) None dictionary_list
       [overlay_a3; overlay_bx; overlay_broken]
     = Ok (DictList [mkrow [("a", Num (Int 1)); ("b", Str "x")]]).
Proof.
  assert (Hcrit : NoDup (keys a1_by)).
  { apply NoDup_cons. split; [|apply NoDup_singleton].
    intros H. apply list_elem_of_singleton in H. discriminate. }
  assert (Hfb : Forall (fun F => NoDup (keys F)) [overlay_a3; overlay_bx; overlay_broken])
    by (repeat (apply List.Forall_cons; [apply NoDup_singleton|]); apply List.Forall_nil).
  assert (Hprimary : _perform_lookup (IsDataFrame two_rows) (IsDict a1_by) None
                       dictionary_list = Ok (DictList [])) by (vm_compute; reflexivity).
  split; [exact Hcrit|]. split; [exact Hfb|]. split; [exact Hprimary|].
  split; [vm_compute; reflexivity|].
  rewrite (lookup_fallback_order (IsDataFrame two_rows) a1_by None
             [overlay_a3; overlay_bx; overlay_broken] Hcrit Hfb Hprimary).
  vm_compute. reflexivity.
Defined.

Lemma lookup_failure_gives_empty_witness :
  In ("zzz", Scalar (Num (Int 1))) [("a", Scalar (Num (Int 1))); ("zzz", Scalar (Num (Int 1)))]
  /\ predicate_failure two_rows "zzz" (Scalar (Num (Int 1)))
  /\ lookup (IsDataFrame two_rows)
       (IsDict [("a", Scalar (Num (Int 1))); ("zzz", Scalar (Num (Int 1)))])
       None dictionary_list []
     = Ok (DictList []).
Proof.
  assert (Hin : In ("zzz", Scalar (Num (Int 1)))
                  [("a", Scalar (Num (Int 1))); ("zzz", Scalar (Num (Int 1)))])
    by (right; left; reflexivity).
  assert (Hfail : predicate_failure two_rows "zzz" (Scalar (Num (Int 1))))
    by (apply unknown_column; reflexivity).
  split; [exact Hin|]. split; [exact Hfail|].
  exact (proj2 (proj2 (lookup_failure_gives_empty (IsDataFrame two_rows)
                         (IsDict [("a", Scalar (Num (Int 1))); ("zzz", Scalar (Num (Int 1)))])
                         None dictionary_list []))
           two_rows _ "zzz" (Scalar (Num (Int 1))) eq_refl eq_refl Hin Hfail).
Defined.

Lemma lookup_bad_argument_witness :
  _perform_lookup (IsDataFrame two_rows) NotDict None dictionary_list = Raise TypeError
  /\ lookup (IsDataFrame two_rows) NotDict None dictionary_list [] = Ok (DictList []).
Proof.
  exact (lookup_bad_argument (IsDataFrame two_rows) NotDict None dictionary_list []
           (or_intror eq_refl)).
Defined.

Lemma total_is_sum_of_subtotals_witness :
  calculate_annual_emissions env_2024 cattle_operation no_fuel no_gwp no_refrigerator
    no_vehicle no_tru cattle_farm = Ok [cattle_record]
  /\ In cattle_record [cattle_record]
  /\ exists sum,
       sum_of_subtotals cattle_record = Ok sum
       /\ total_emissions cattle_record = sum
       /\ py_eq (total_emissions cattle_record) sum
          = negb (is_missing (total_emissions cattle_record)).
Proof.
  assert (Hrun : calculate_annual_emissions env_2024 cattle_operation no_fuel no_gwp
                   no_refrigerator no_vehicle no_tru cattle_farm = Ok [cattle_record])
    by (vm_compute; reflexivity).
  assert (Hin : In cattle_record [cattle_record]) by (left; reflexivity).
  split; [exact Hrun|]. split; [exact Hin|].
  exact (total_is_sum_of_subtotals env_2024 cattle_operation no_fuel no_gwp no_refrigerator
           no_vehicle no_tru cattle_farm [cattle_record] cattle_record Hrun Hin).
Defined.

(** C6, as the claim states it, fails: the farm table has a row for
    cattle with a missing factor; the record of the run has a NaN total,
    which does not equal the sum of its subtotals. *)
Lemma nan_total_differs_from_sum :
  calculate_annual_emissions env_2024 cattle_operation no_fuel no_gwp no_refrigerator
    no_vehicle no_tru blank_farm = Ok [blank_record]
  /\ sum_of_subtotals blank_record = Ok NaN
  /\ py_eq (total_emissions blank_record) NaN = false.
Proof. repeat split; vm_compute; reflexivity. Qed.


Lemma zero_efficiency_guard_witness :
  stage1 env_2024 cattle_operation cattle_row no_fuel no_gwp no_refrigerator no_vehicle
    no_tru cattle_farm = Ok cattle_secondary
  /\ stage2 env_2024 cattle_operation cattle_row = Ok cattle_inputs
  /\ py_eq (vehicle_fuel_efficiency cattle_secondary) zero = true
  /\ calc_vehicle_emissions cattle_secondary cattle_inputs = Ok zero.
Proof.
  assert (Hs : stage1 env_2024 cattle_operation cattle_row no_fuel no_gwp no_refrigerator
                 no_vehicle no_tru cattle_farm = Ok cattle_secondary)
    by (vm_compute; reflexivity).
  assert (Hn : stage2 env_2024 cattle_operation cattle_row = Ok cattle_inputs)
    by (vm_compute; reflexivity).
  assert (Hzero : py_eq (vehicle_fuel_efficiency cattle_secondary) zero = true)
    by reflexivity.
  split; [exact Hs|]. split; [exact Hn|]. split; [exact Hzero|].
  exact (proj1 (zero_efficiency_guard env_2024 cattle_operation no_fuel no_gwp
                  no_refrigerator no_vehicle no_tru cattle_farm cattle_row
                  cattle_secondary cattle_inputs Hs Hn Hzero)).
Defined.

Lemma numeric_normalization_witness :
  Forall (fun field => has_column mixed_operation field = true) numeric_fields
  /\ stage2 env_reading mixed_operation mixed_row = Ok mixed_inputs.
Proof.
  assert (Hfields : Forall (fun field => has_column mixed_operation field = true)
                      numeric_fields) by (repeat constructor).
  split; [exact Hfields|].
  rewrite (proj1 (numeric_normalization env_reading mixed_operation mixed_row Hfields)).
  vm_compute. reflexivity.
Defined.

(** * Further properties of the lookup engine *)

(** ** Several criteria *)






(** ** Equality criteria with fallback *)








(** ** Comparators *)





(** ** What a lookup can return *)

Lemma mapM_Ok_map {A B} (f : A -> res B) (g : A -> B) (l : list A) (ys : list B) :
  (forall x y, f x = Ok y -> y = g x) -> mapM f l = Ok ys -> ys = map g l.
Proof.
  intros Hf. revert ys. induction l as [|x l IH]; simpl; intros ys H.
  - injection H as <-. reflexivity.
  - apply bind_Ok in H as (y & Hy & H). apply bind_Ok in H as (ys' & Hys & H).
    injection H as <-. rewrite (Hf x y Hy), (IH ys' Hys). reflexivity.
Qed.


Lemma project_row_Ok (df : DataFrame) (r d : gmap string value) (cols : list string) :
  project_row df r cols = Ok d ->
  d = list_to_map (map (fun key => (key, item df r key)) cols).
Proof.
  unfold project_row. intros H. apply bind_Ok in H as (kvs & Hkvs & H).
  injection H as <-. f_equal.
  apply (mapM_Ok_map _ (fun key => (key, item df r key)) _ _) in Hkvs; [exact Hkvs|].
  intros key kv Hkv. apply bind_Ok in Hkv as (v & Hv & Hkv). injection Hkv as <-.
  unfold getitem in Hv. destruct (has_column df key); congruence.
Qed.

(** The matching pass in the list format returns the selected rows,
    projected. *)
Lemma perform_lookup_selected (T : DataFrame) (crit : criteria)
    (oc : option (list string)) (l : list (gmap string value)) :
  _perform_lookup (IsDataFrame T) (IsDict crit) oc dictionary_list = Ok (DictList l) ->
  exists mask, l = map (projected T oc) (select mask (rows T)).
Proof.
  unfold _perform_lookup. intros H. apply bind_Ok in H as (mask & _ & H).
  change (String.eqb dictionary_list "dataframe") with false in H.
  change (String.eqb dictionary_list "dictionary_list") with true in H.
  cbv iota in H. cbn [columns rows] in H.
  apply bind_Ok in H as (l' & Hl & H). injection H as <-. exists mask.
  apply (mapM_Ok_map _ (projected T oc) _ _ ) in Hl; [exact Hl|].
  intros r d Hd. destruct oc as [cols|]; simpl.
  - apply project_row_Ok in Hd. exact Hd.
  - injection Hd as <-. reflexivity.
Qed.

Lemma try_fallbacks_selected (T : DataFrame) (crit : criteria)
    (oc : option (list string)) (fb : list criteria) (result : lookup_result) :
  try_fallbacks (IsDataFrame T) (IsDict crit) oc dictionary_list fb = Ok result ->
  exists mask, result = DictList (map (projected T oc) (select mask (rows T))).
Proof.
  induction fb as [|u fb IH]; cbn [try_fallbacks].
  - intros [= <-]. exists []. reflexivity.
  - intros H. apply bind_Ok in H as (c & Hc & H). injection Hc as <-.
    apply bind_Ok in H as (r & Hr & H). apply bind_Ok in H as (t & _ & H).
    destruct t; [|exact (IH H)]. injection H as <-.
    destruct (perform_lookup_list _ _ _ _ Hr) as [l ->].
    apply perform_lookup_selected in Hr as [mask ->]. eauto.
Qed.

Lemma lookup_selected (T : DataFrame) (crit : criteria_arg)
    (oc : option (list string)) (fb : list criteria) :
  exists mask,
    lookup (IsDataFrame T) crit oc dictionary_list fb
    = Ok (DictList (map (projected T oc) (select mask (rows T)))).
Proof.
  unfold lookup.
  destruct (lookup_try (IsDataFrame T) crit oc dictionary_list fb) as [result|e] eqn:H.
  - unfold lookup_try in H. apply bind_Ok in H as (r & Hr & H).
    destruct (perform_lookup_Ok_args _ _ _ _ _ Hr) as [_ [c ->]].
    apply bind_Ok in H as (t & _ & H). destruct t.
    + injection H as <-. destruct (perform_lookup_list _ _ _ _ Hr) as [l ->].
      apply perform_lookup_selected in Hr as [mask ->]. eauto.
    + apply try_fallbacks_selected in H as [mask ->]. eauto.
  - rewrite (lookup_try_Raise _ _ _ _ _ _ H). exists []. reflexivity.
Qed.


(** ** Output columns and output formats *)

Lemma project_row_unknown (df : DataFrame) (r : gmap string value) (cols : list string)
    (c : string) :
  In c cols -> has_column df c = false -> project_row df r cols = Raise KeyError.
Proof.
  intros Hin Hc. unfold project_row.
  assert (H : mapM (fun key => let! v := getitem df r key in Ok (key, v)) cols
              = Raise KeyError).
  { induction cols as [|k cols IH]; [destruct Hin|]. simpl.
    unfold getitem at 1. destruct (has_column df k) eqn:Hk; simpl.
    - destruct Hin as [->|Hin]; [congruence|]. rewrite (IH Hin). reflexivity.
    - reflexivity. }
  rewrite H. reflexivity.
Qed.

Lemma perform_lookup_unknown_output (T : DataFrame) (crit : criteria_arg)
    (cols : list string) (c : string) (result : lookup_result) :
  In c cols -> has_column T c = false ->
  _perform_lookup (IsDataFrame T) crit (Some cols) dictionary_list = Ok result ->
  result = DictList [].
Proof.
  intros Hin Hc. unfold _perform_lookup. destruct crit as [crit|]; [|discriminate].
  intros H. apply bind_Ok in H as (mask & _ & H).
  change (String.eqb dictionary_list "dataframe") with false in H.
  change (String.eqb dictionary_list "dictionary_list") with true in H.
  cbv iota in H. cbn [columns rows] in H.
  apply bind_Ok in H as (l & Hl & H). injection H as <-.
  destruct (select mask (rows T)) as [|r rs]; simpl in Hl; [congruence|].
  rewrite (project_row_unknown _ r cols c Hin) in Hl by exact Hc. discriminate.
Qed.

Lemma lookup_unknown_output (T : DataFrame) (crit : criteria_arg)
    (cols : list string) (c : string) (fb : list criteria) :
  In c cols -> has_column T c = false ->
  lookup (IsDataFrame T) crit (Some cols) dictionary_list fb = Ok (DictList []).
Proof.
  intros Hin Hc. unfold lookup.
  destruct (lookup_try (IsDataFrame T) crit (Some cols) dictionary_list fb)
    as [result|e] eqn:H; [|rewrite (lookup_try_Raise _ _ _ _ _ _ H); reflexivity].
  unfold lookup_try in H. apply bind_Ok in H as (r & Hr & H).
  destruct (perform_lookup_Ok_args _ _ _ _ _ Hr) as [_ [crit' ->]].
  rewrite (perform_lookup_unknown_output _ _ _ _ _ Hin Hc Hr) in H. cbn [truth bind] in H.
  clear Hr. induction fb as [|u fb IH]; cbn [try_fallbacks] in H.
  { injection H as <-. reflexivity. }
  apply bind_Ok in H as (updated & Hu & H). injection Hu as <-.
  apply bind_Ok in H as (r' & Hr' & H).
  rewrite (perform_lookup_unknown_output _ _ _ _ _ Hin Hc Hr') in H. cbn [truth bind] in H.
  apply IH. exact H.
Qed.

(** X4: in the list format, when one of the output columns is not a
    column of the table, [lookup] returns the empty list whatever the
    criteria and the fallback sequence are, also when rows match. *)
Theorem lookup_unknown_output_column (T : DataFrame) (crit : criteria_arg)
    (cols : list string) (c : string) (fallback_criteria : list criteria) :
  In c cols -> has_column T c = false ->
  lookup (IsDataFrame T) crit (Some cols) dictionary_list fallback_criteria
  = Ok (DictList []).
Proof. apply lookup_unknown_output. Qed.

Lemma perform_lookup_format (df : table_arg) (crit : criteria_arg)
    (oc : option (list string)) (fmt : string) (result : lookup_result) :
  _perform_lookup df crit oc fmt = Ok result ->
  fmt = "dataframe"%string \/ fmt = dictionary_list.
Proof.
  unfold _perform_lookup. destruct df as [df|]; [|discriminate].
  destruct crit as [crit|]; [|discriminate]. intros H.
  apply bind_Ok in H as (mask & _ & H).
  destruct (String.eqb_spec fmt "dataframe"); [left; assumption|].
  destruct (String.eqb_spec fmt "dictionary_list"); [right; assumption | discriminate].
Qed.

(** X5: with an output format that is neither ['dataframe'] nor
    ['dictionary_list'], [lookup] returns the empty list on every input:
    the [ValueError] of the matching pass is caught. *)
Theorem lookup_unknown_format (df : table_arg) (crit : criteria_arg)
    (output_columns : option (list string)) (output_format : string)
    (fallback_criteria : list criteria) :
  output_format <> "dataframe"%string -> output_format <> dictionary_list ->
  lookup df crit output_columns output_format fallback_criteria = Ok (DictList []).
Proof.
  intros Hframe Hlist.
  assert (Hempty : empty_result output_format = DictList []).
  { unfold empty_result. destruct (String.eqb_spec output_format "dataframe"); congruence. }
  rewrite <- Hempty.
  destruct (lookup_try df crit output_columns output_format fallback_criteria)
    as [result|e] eqn:H; [|exact (lookup_catches _ _ _ _ _ _ H)].
  unfold lookup_try in H. apply bind_Ok in H as (r & Hr & _).
  apply perform_lookup_format in Hr as [Hr|Hr]; contradiction.
Qed.

(** ** The criteria as a dict *)

Lemma dict_update_NoDup (d u : criteria) :
  NoDup (keys d) -> NoDup (keys (dict_update d u)).
Proof.
  unfold dict_update. revert d. induction u as [|[k c] u IH]; intros d Hd; simpl; [exact Hd|].
  apply IH. apply dict_set_NoDup_keys. exact Hd.
Qed.

Lemma dict_get_set (d : criteria) (k k' : string) (c : criterion) :
  dict_get (dict_set d k c) k' = if String.eqb k k' then Some c else dict_get d k'.
Proof.
  induction d as [|[k0 c0] d IH]; simpl.
  - reflexivity.
  - destruct (String.eqb_spec k0 k) as [->|Hne]; simpl.
    + destruct (String.eqb k k'); reflexivity.
    + rewrite IH. destruct (String.eqb_spec k0 k') as [->|Hne'].
      * destruct (String.eqb_spec k k'); [congruence | reflexivity].
      * reflexivity.
Qed.

(** X7: merging an overlay with distinct keys onto criteria gives a dict
    in which a key of the overlay has the overlay's value and every other
    key keeps the value of the criteria; distinct keys stay distinct. *)
Theorem dict_update_get (d u : criteria) :
  NoDup (keys u) ->
  (forall k, dict_get (dict_update d u) k
             = match dict_get u k with
               | Some c => Some c
               | None => dict_get d k
               end)
  /\ (NoDup (keys d) -> NoDup (keys (dict_update d u))).
Proof.
  intros Hu. split; [|apply dict_update_NoDup].
  unfold dict_update. revert d. induction u as [|[k0 c0] u IH]; intros d k; simpl.
  - reflexivity.
  - simpl in Hu. apply NoDup_cons in Hu as [Hk0 Hu]. rewrite (IH Hu), dict_get_set.
    destruct (String.eqb_spec k0 k) as [->|Hne]; [|reflexivity].
    rewrite (dict_get_absent u k Hk0). reflexivity.
Qed.

(** ** The order of the criteria *)

Lemma agree_refl {A} (m : res A) : agree m m.
Proof. destruct m; simpl; trivial. Qed.

Lemma agree_trans {A} (m1 m2 m3 : res A) : agree m1 m2 -> agree m2 m3 -> agree m1 m3.
Proof. destruct m1, m2, m3; simpl; try tauto; congruence. Qed.

Lemma agree_bind {A B} (m1 m2 : res A) (k1 k2 : A -> res B) :
  agree m1 m2 -> (forall a, agree (k1 a) (k2 a)) -> agree (bind m1 k1) (bind m2 k2).
Proof. destruct m1, m2; simpl; try tauto. intros ->. auto. Qed.

Lemma zip_with_andb_swap (m a b : list bool) :
  zip_with andb (zip_with andb m a) b = zip_with andb (zip_with andb m b) a.
Proof.
  revert a b. induction m as [|x m IH]; intros [|y a] [|z b]; simpl; try reflexivity.
  rewrite IH. f_equal. destruct x, y, z; reflexivity.
Qed.

Lemma apply_criteria_Permutation (df : DataFrame) (c1 c2 : criteria) :
  c1 ≡ₚ c2 -> forall mask, agree (apply_criteria df c1 mask) (apply_criteria df c2 mask).
Proof.
  induction 1 as [|[col c] l1 l2 _ IH|[col1 c1] [col2 c2] l|l1 l2 l3 _ IH1 _ IH2];
    intros mask.
  - apply agree_refl.
  - simpl. apply agree_bind; [apply agree_refl | intros m; apply IH].
  - simpl. destruct (criteria_mask df col1 c1) as [m1|e1], (criteria_mask df col2 c2) as [m2|e2];
      simpl; trivial.
    rewrite zip_with_andb_swap. apply agree_refl.
  - exact (agree_trans _ _ _ (IH1 mask) (IH2 mask)).
Qed.

Lemma perform_lookup_Permutation (df : table_arg) (c1 c2 : criteria)
    (oc : option (list string)) (fmt : string) :
  c1 ≡ₚ c2 ->
  agree (_perform_lookup df (IsDict c1) oc fmt) (_perform_lookup df (IsDict c2) oc fmt).
Proof.
  intros Hperm. unfold _perform_lookup. destruct df as [df|]; [|exact I].
  apply agree_bind; [apply apply_criteria_Permutation; exact Hperm|].
  intros mask. apply agree_refl.
Qed.

Lemma dict_set_filter (d : list (string * criterion)) (k : string) (c : criterion) :
  NoDup (keys d) ->
  dict_set d k c ≡ₚ (k, c) :: filter (fun kc => kc.1 <> k) d.
Proof.
  induction d as [|[k' c'] d IH]; intros Hd; [reflexivity|].
  change (keys ((k', c') :: d)) with (k' :: keys d) in Hd.
  apply NoDup_cons in Hd as [Hk' Hd]. cbn [dict_set].
  destruct (String.eqb_spec k' k) as [->|Hne].
  - rewrite filter_cons_False by (simpl; tauto). apply Permutation_cons; [reflexivity|].
    clear IH Hd. induction d as [|[k0 c0] d IH]; [reflexivity|].
    change (keys ((k0, c0) :: d)) with (k0 :: keys d) in Hk'.
    apply not_elem_of_cons in Hk' as [Hne Hk'].
    rewrite filter_cons_True by (simpl; congruence). rewrite <- (IH Hk'). reflexivity.
  - rewrite filter_cons_True by exact Hne. rewrite (IH Hd). apply perm_swap.
Qed.

Lemma keys_Permutation (c1 c2 : criteria) : c1 ≡ₚ c2 -> keys c1 ≡ₚ keys c2.
Proof. intros H. unfold keys. apply Permutation_map. exact H. Qed.

Lemma dict_set_Permutation (c1 c2 : criteria) (k : string) (c : criterion) :
  NoDup (keys c1) -> c1 ≡ₚ c2 -> dict_set c1 k c ≡ₚ dict_set c2 k c.
Proof.
  intros Hd Hperm.
  assert (Hd2 : NoDup (keys c2)) by (rewrite <- (keys_Permutation _ _ Hperm); exact Hd).
  rewrite (dict_set_filter c1 k c Hd), (dict_set_filter c2 k c Hd2), Hperm. reflexivity.
Qed.

Lemma dict_update_Permutation (c1 c2 u : criteria) :
  NoDup (keys c1) -> c1 ≡ₚ c2 -> dict_update c1 u ≡ₚ dict_update c2 u.
Proof.
  unfold dict_update. revert c1 c2. induction u as [|[k c] u IH]; intros c1 c2 Hd Hperm; simpl.
  - exact Hperm.
  - apply IH; [apply dict_set_NoDup_keys; exact Hd | apply dict_set_Permutation; assumption].
Qed.

Lemma try_fallbacks_Permutation (df : table_arg) (c1 c2 : criteria)
    (oc : option (list string)) (fmt : string) (fb : list criteria) :
  NoDup (keys c1) -> c1 ≡ₚ c2 ->
  agree (try_fallbacks df (IsDict c1) oc fmt fb) (try_fallbacks df (IsDict c2) oc fmt fb).
Proof.
  intros Hd Hperm. induction fb as [|u fb IH]; cbn [try_fallbacks copy_update bind].
  - reflexivity.
  - apply agree_bind.
    + apply perform_lookup_Permutation. apply dict_update_Permutation; assumption.
    + intros result. apply agree_bind; [apply agree_refl|].
      intros [|]; [reflexivity | exact IH].
Qed.

(** X8: the order in which the criteria are written does not matter:
    two criteria dicts with distinct keys that hold the same entries in
    a different order give the same result, for every table, output
    format and fallback sequence. *)
Theorem lookup_criteria_order (df : table_arg) (c1 c2 : criteria)
    (output_columns : option (list string)) (output_format : string)
    (fallback_criteria : list criteria) :
  NoDup (keys c1) -> c1 ≡ₚ c2 ->
  lookup df (IsDict c1) output_columns output_format fallback_criteria
  = lookup df (IsDict c2) output_columns output_format fallback_criteria.
Proof.
  intros Hd Hperm.
  assert (H : agree (lookup_try df (IsDict c1) output_columns output_format fallback_criteria)
                    (lookup_try df (IsDict c2) output_columns output_format
                       fallback_criteria)).
  { unfold lookup_try. apply agree_bind; [apply perform_lookup_Permutation; exact Hperm|].
    intros result. apply agree_bind; [apply agree_refl|].
    intros [|]; [reflexivity | apply try_fallbacks_Permutation; assumption]. }
  unfold lookup.
  destruct (lookup_try df (IsDict c1) output_columns output_format fallback_criteria)
    as [r1|e1] eqn:H1,
    (lookup_try df (IsDict c2) output_columns output_format fallback_criteria)
    as [r2|e2] eqn:H2; simpl in H; try contradiction.
  - congruence.
  - rewrite (lookup_try_Raise _ _ _ _ _ _ H1), (lookup_try_Raise _ _ _ _ _ _ H2). reflexivity.
Qed.

(** * Further properties of the aggregator *)

(** ** How a factor is resolved *)

Lemma projected_lookup (T : DataFrame) (cols : list string) (r : gmap string value)
    (key : string) :
  In key cols -> projected T (Some cols) r !! key = Some (item T r key).
Proof.
  intros Hin. simpl. induction cols as [|k cols IH]; [destruct Hin|].
  simpl. destruct (decide (k = key)) as [->|Hne].
  - apply lookup_insert_eq.
  - rewrite lookup_insert_ne by exact Hne. apply IH. destruct Hin; [contradiction | assumption].
Qed.

Lemma first_or_zero_projected (T : DataFrame) (cols : list string)
    (rs : list (gmap string value)) (key : string) :
  In key cols ->
  first_or_zero (DictList (map (projected T (Some cols)) rs)) key
  = Ok (first_cell_or_zero T rs key).
Proof.
  intros Hin. destruct rs as [|r rs]; [reflexivity|].
  unfold first_or_zero. cbn [map truth bind first_item first_cell_or_zero].
  rewrite (projected_lookup T cols r key Hin). reflexivity.
Qed.

Lemma first_get_or_zero_projected (T : DataFrame) (cols : list string)
    (rs : list (gmap string value)) (key : string) :
  In key cols ->
  first_get_or_zero (DictList (map (projected T (Some cols)) rs)) key
  = Ok (first_cell_or_zero T rs key).
Proof.
  intros Hin. destruct rs as [|r rs]; [reflexivity|].
  unfold first_get_or_zero. cbn [map truth bind first_item first_cell_or_zero].
  rewrite (projected_lookup T cols r key Hin). reflexivity.
Qed.


(** The same block on a table that lacks the key column or the factor
    column: the [KeyError] is swallowed and the factor is 0. *)
Lemma one_key_factor_degraded (T : DataFrame) (key_column factor_column : string)
    (v : value) :
  has_column T key_column = false \/ has_column T factor_column = false ->
  (let! found := lookup (IsDataFrame T) (IsDict [(key_column, Scalar v)])
                   (Some [factor_column]) dictionary_list [] in
   first_or_zero found factor_column)
  = Ok zero.
Proof.
  intros [Hkey|Hfactor].
  - rewrite (lookup_catches _ _ _ _ _ KeyError); [reflexivity|].
    unfold lookup_try, _perform_lookup, apply_criteria, criteria_mask, series.
    rewrite Hkey. reflexivity.
  - rewrite (lookup_unknown_output T _ [factor_column] factor_column [])
      by (try (left; reflexivity); exact Hfactor).
    reflexivity.
Qed.

Section Factors.
Variables (operation_data : DataFrame) (row : gmap string value).
Variables (refrigerant_gwp refrigerator_data farm_emissions : DataFrame).


(** X11: a reference table that lacks its key column or its factor
    column does not stop the run: each factor resolved from it is 0. *)
Theorem factor_of_unusable_table :
  (has_column refrigerator_data "refrigerator_type" = false
   \/ has_column refrigerator_data "annual_leakage_rate" = false ->
   (has_column operation_data "refrigerator_type" = true ->
    lookup_annual_leakage_rate operation_data row refrigerator_data = Ok zero)
   /\ lookup_tru_annual_leakage_rate refrigerator_data = Ok zero)
  /\ (has_column refrigerant_gwp "refrigerant_type" = false
      \/ has_column refrigerant_gwp "refrigerant_gwp" = false ->
      (has_column operation_data "refrigerant_type" = true ->
       lookup_refrigerant_gwp_value operation_data row refrigerant_gwp = Ok zero)
      /\ (has_column operation_data "tru_refrigerant_type" = true ->
          lookup_tru_refrigerant_gwp_value operation_data row refrigerant_gwp = Ok zero))
  /\ (has_column farm_emissions "subcategory" = false
      \/ has_column farm_emissions "emission_per_unit" = false ->
      forall type_field,
        has_column operation_data type_field = true ->
        lookup_emission_per_unit operation_data row farm_emissions type_field = Ok zero).
Proof.
  unfold lookup_annual_leakage_rate, lookup_refrigerant_gwp_value,
    lookup_tru_annual_leakage_rate, lookup_tru_refrigerant_gwp_value,
    lookup_emission_per_unit, getitem.
  repeat split; intros;
    repeat match goal with
           | H : has_column operation_data _ = true |- _ => rewrite H; clear H
           end;
    cbn [bind]; apply one_key_factor_degraded; assumption.
Qed.
End Factors.

(** ** Factors resolved with fallback *)


Section FuelBlock.
Variable env : Env.
Variables (operation_data fuel_data : DataFrame) (row : gmap string value).
Hypothesis operation_columns_present :
  Forall (fun c => has_column operation_data c = true)
    ["entity"; "fuel_type"; "target_completion_year"; "state_or_province"].
Hypothesis fuel_key_columns :
  Forall (fun c => has_column fuel_data c = true)
    ["fuel_type"; "fuel_mode"; "state_or_province"].

Let year := item operation_data row "target_completion_year".
Let found :=
  fuel_rows fuel_data (item operation_data row "fuel_type")
    (fuel_mode_for (item operation_data row "entity") (item operation_data row "fuel_type"))
    (item operation_data row "state_or_province").



End FuelBlock.

(** ** The run as a whole *)


Lemma getitem_Ok (df : DataFrame) (r : gmap string value) (key : string) (v : value) :
  getitem df r key = Ok v -> has_column df key = true /\ v = item df r key.
Proof. unfold getitem. destruct (has_column df key); [intros [= <-]; auto | discriminate]. Qed.


(** ** Stage 1 never fails for want of reference data *)

Lemma lookup_first_or_zero_returns (T : DataFrame) (crit : criteria_arg)
    (cols : list string) (fb : list criteria) (key : string) :
  In key cols ->
  exists v,
    (let! found := lookup (IsDataFrame T) crit (Some cols) dictionary_list fb in
     first_or_zero found key) = Ok v.
Proof.
  intros Hin. destruct (lookup_selected T crit (Some cols) fb) as [mask ->].
  cbn [bind]. rewrite first_or_zero_projected by exact Hin. eauto.
Qed.

Section Stage1Returns.
Variable env : Env.
Variables (operation_data : DataFrame) (row : gmap string value).
Variables (fuel_data refrigerant_gwp refrigerator_data vehicle_interventions
           vehicle_interventions_tru farm_emissions : DataFrame).
Hypothesis fields_present :
  Forall (fun c => has_column operation_data c = true) stage1_fields.

Lemma field_present (c : string) : In c stage1_fields -> has_column operation_data c = true.
Proof.
  intros Hin. pose proof fields_present as H. rewrite Forall_forall in H.
  apply H. apply list_elem_of_In. exact Hin.
Qed.

Ltac read_fields :=
  unfold getitem;
  repeat match goal with
         | |- context [has_column operation_data ?c] =>
             rewrite (field_present c) by (simpl; tauto)
         end;
  cbn [bind].

Lemma fuel_block_returns :
  exists factors, lookup_fuel_emission_factors env operation_data row fuel_data = Ok factors.
Proof.
  unfold lookup_fuel_emission_factors, fuel_mode_of_row. read_fields.
  destruct (py_eq (item operation_data row "entity") (Str "vehicle")); cbn [bind];
    match goal with
    | |- context [lookup (IsDataFrame ?T) ?c (Some ?cols) dictionary_list ?fb] =>
        destruct (lookup_selected T c (Some cols) fb) as [mask ->]
    end;
    cbn [bind]; rewrite !first_get_or_zero_projected by (simpl; tauto); cbn [bind];
    destruct (_ && _); cbn [bind];
    rewrite ?first_get_or_zero_projected by (simpl; tauto); cbn [bind]; eauto.
Qed.

Lemma stage1_total :
  exists s,
    stage1 env operation_data row fuel_data refrigerant_gwp refrigerator_data
      vehicle_interventions vehicle_interventions_tru farm_emissions = Ok s.
Proof.
  unfold stage1, lookup_annual_leakage_rate, lookup_refrigerant_gwp_value,
    lookup_tru_annual_leakage_rate, lookup_tru_refrigerant_gwp_value, lookup_tru_data,
    lookup_emission_per_unit, lookup_vehicle_fuel_efficiency.
  read_fields.
  repeat match goal with
         | |- context [bind (bind (lookup (IsDataFrame ?T) ?c (Some ?cols) dictionary_list ?fb)
                               (fun found => first_or_zero found ?key)) _] =>
             destruct (lookup_first_or_zero_returns T c cols fb key ltac:(simpl; tauto))
               as [? ->]; cbn [bind]
         | |- context [bind (lookup (IsDataFrame ?T) ?c (Some ?cols) dictionary_list ?fb) _] =>
             destruct (lookup_selected T c (Some cols) fb) as [? ->]; cbn [bind];
             rewrite !first_or_zero_projected by (simpl; tauto); cbn [bind]
         end.
  destruct fuel_block_returns as [factors ->]. cbn [bind]. eauto.
Qed.

(** X16: when the operation table has the fields that stage 1 reads,
    stage 1 returns the secondary data of every record and never
    raises, whatever the seven reference tables contain: tables without
    rows, without the expected columns or with cells of any kind. *)
Theorem stage1_returns :
  exists s,
    stage1 env operation_data row fuel_data refrigerant_gwp refrigerator_data
      vehicle_interventions vehicle_interventions_tru farm_emissions = Ok s.
Proof. exact stage1_total. Qed.
End Stage1Returns.

(** ** How a run can fail *)












Lemma stage2_Raise (env : Env) (operation_data : DataFrame) (row : gmap string value)
    (e : exn) :
  stage2 env operation_data row = Raise e -> e = KeyError.
Proof.
  unfold stage2, numeric_field. intros H.
  repeat (apply bind_Raise in H as [H|(? & _ & H)]); try discriminate H;
    exact (getitem_Raise _ _ _ _ H).
Qed.

Lemma stage2_Ok_fields (env : Env) (operation_data : DataFrame) (row : gmap string value)
    (n : Inputs) :
  stage2 env operation_data row = Ok n ->
  Forall (fun c => has_column operation_data c = true) numeric_fields.
Proof.
  unfold stage2, numeric_field. intros H.
  repeat match goal with
         | Hb : bind _ _ = Ok _ |- _ => apply bind_Ok in Hb as (? & ? & Hb)
         end.
  repeat match goal with
         | Hg : getitem _ _ _ = Ok _ |- _ => apply getitem_Ok in Hg as [Hg _]
         end.
  repeat constructor; assumption.
Qed.

Lemma first_or_zero_list_Raise (l : list (gmap string value)) (key : string) (e : exn) :
  first_or_zero (DictList l) key = Raise e -> e = KeyError.
Proof.
  unfold first_or_zero. destruct l as [|d l]; simpl; [discriminate|].
  destruct (d !! key); congruence.
Qed.

Lemma lookup_not_Raise (df : table_arg) (crit : criteria_arg) (oc : option (list string))
    (fmt : string) (fb : list criteria) (e : exn) :
  lookup df crit oc fmt fb <> Raise e.
Proof. destruct (lookup_never_raises df crit oc fmt fb) as [r ->]. discriminate. Qed.

Lemma first_get_or_zero_list_not_Raise (l : list (gmap string value)) (key : string)
    (e : exn) :
  first_get_or_zero (DictList l) key <> Raise e.
Proof. destruct (first_get_or_zero_list l key) as [v ->]. discriminate. Qed.

Section Stage1Fails.
Variable env : Env.
Variables (operation_data : DataFrame) (row : gmap string value).
Variables (fuel_data refrigerant_gwp refrigerator_data vehicle_interventions
           vehicle_interventions_tru farm_emissions : DataFrame).

Ltac open_stage1 H :=
  unfold stage1, lookup_annual_leakage_rate, lookup_refrigerant_gwp_value,
    lookup_tru_annual_leakage_rate, lookup_tru_refrigerant_gwp_value, lookup_tru_data,
    lookup_emission_per_unit, lookup_vehicle_fuel_efficiency,
    lookup_fuel_emission_factors, fuel_mode_of_row in H.

Lemma stage1_Ok_fields (s : Secondary) :
  stage1 env operation_data row fuel_data refrigerant_gwp refrigerator_data
    vehicle_interventions vehicle_interventions_tru farm_emissions = Ok s ->
  Forall (fun c => has_column operation_data c = true) stage1_fields.
Proof.
  intros H. open_stage1 H.
  repeat match goal with
         | Hb : bind _ _ = Ok _ |- _ => apply bind_Ok in Hb as (? & ? & Hb)
         end.
  repeat match goal with
         | Hg : getitem _ _ _ = Ok _ |- _ => apply getitem_Ok in Hg as [Hg _]
         end.
  repeat constructor; assumption.
Qed.

Lemma stage1_Raise (e : exn) :
  stage1 env operation_data row fuel_data refrigerant_gwp refrigerator_data
    vehicle_interventions vehicle_interventions_tru farm_emissions = Raise e ->
  e = KeyError.
Proof.
  intros H. open_stage1 H.
  repeat match type of H with
         | bind _ _ = Raise _ => apply bind_Raise in H as [H|(? & ? & H)]
         end;
    repeat match goal with
           | Hl : lookup ?d ?c ?oc dictionary_list ?fb = Ok ?x |- _ =>
               destruct (lookup_list d c oc fb) as [? Hx]; rewrite Hx in Hl;
               injection Hl as <-; clear Hx
           | Hl : bind _ _ = Ok _ |- _ => apply bind_Ok in Hl as (? & ? & Hl)
           end;
    first [ discriminate H
          | exact (getitem_Raise _ _ _ _ H)
          | exact (first_or_zero_list_Raise _ _ _ H)
          | exfalso; exact (lookup_not_Raise _ _ _ _ _ _ H)
          | exfalso; exact (first_get_or_zero_list_not_Raise _ _ _ H)
          | idtac ].
  - destruct (py_eq _ _) in H; [|discriminate H].
    apply bind_Raise in H as [H|(? & ? & H)]; [|discriminate H].
    exact (getitem_Raise _ _ _ _ H).
  - destruct (_ && _) in H; [discriminate H|].
    exfalso. exact (first_get_or_zero_list_not_Raise _ _ _ H).
Qed.
End Stage1Fails.



Section RunFailures.
Variable env : Env.
Variables (operation_data fuel_data refrigerant_gwp refrigerator_data
           vehicle_interventions vehicle_interventions_tru farm_emissions : DataFrame).

Let run_row :=
  emissions_of_row env operation_data fuel_data refrigerant_gwp refrigerator_data
    vehicle_interventions vehicle_interventions_tru farm_emissions.



(** X18: when the operation table has at least one row and lacks one of
    the fields that stage 1 or stage 2 reads, the run raises
    [KeyError]. *)
Theorem missing_field_raises (c : string) :
  In c (stage1_fields ++ numeric_fields) ->
  has_column operation_data c = false ->
  rows operation_data <> [] ->
  calculate_annual_emissions env operation_data fuel_data refrigerant_gwp
    refrigerator_data vehicle_interventions vehicle_interventions_tru farm_emissions
  = Raise KeyError.
Proof.
  intros Hin Hc Hrows. unfold calculate_annual_emissions.
  destruct (rows operation_data) as [|row rest]; [contradiction|]. cbn [mapM].
  assert (Hrow : run_row row = Raise KeyError); [|unfold run_row in Hrow; rewrite Hrow; reflexivity].
  assert (Hmissing : forall l, In c l ->
             ~ Forall (fun c => has_column operation_data c = true) l).
  { intros l Hl Hall. rewrite Forall_forall in Hall.
    rewrite (Hall c) in Hc by (apply list_elem_of_In; exact Hl). discriminate. }
  unfold run_row, emissions_of_row.
  destruct (stage1 env operation_data row fuel_data refrigerant_gwp refrigerator_data
              vehicle_interventions vehicle_interventions_tru farm_emissions)
    as [s|e] eqn:Hs; cbn [bind].
  - apply stage1_Ok_fields in Hs.
    apply in_app_or in Hin as [Hin|Hin]; [exact (False_ind _ (Hmissing _ Hin Hs))|].
    destruct (stage2 env operation_data row) as [n|e] eqn:Hn; cbn [bind].
    + apply stage2_Ok_fields in Hn. exact (False_ind _ (Hmissing _ Hin Hn)).
    + rewrite (stage2_Raise _ _ _ _ Hn). reflexivity.
  - rewrite (stage1_Raise _ _ _ _ _ _ _ _ _ _ Hs). reflexivity.
Qed.
End RunFailures.

(** * Properties of the loader and of the script *)

(** ** File names *)

Example splitext_examples :
  map splitext_root ["fuel_data.csv"; "a.b.csv"; ".csv"; "..csv"; ".csv.csv"; "README"]%string
  = ["fuel_data"; "a.b"; ".csv"; "..csv"; ".csv"; "README"]%string.
Proof. reflexivity. Qed.

Lemma chars_app (s t : string) : chars (s +:+ t) = chars s ++ chars t.
Proof. unfold chars. induction s as [|a s IH]; simpl; [reflexivity|]. rewrite IH. reflexivity. Qed.

Lemma chars_length (s : string) : length (chars s) = String.length s.
Proof. unfold chars. induction s as [|a s IH]; simpl; [reflexivity|]. rewrite IH. reflexivity. Qed.

Lemma rfind_from_app (c : ascii) (l1 l2 : list ascii) (i last : Z) :
  rfind_from c (l1 ++ l2) i last
  = rfind_from c l2 (i + Z.of_nat (length l1)) (rfind_from c l1 i last).
Proof.
  revert i last. induction l1 as [|a l1 IH]; intros i last; simpl.
  - rewrite Z.add_0_r. reflexivity.
  - rewrite IH. f_equal. lia.
Qed.

Lemma rfind_from_absent (c : ascii) (l : list ascii) (i last : Z) :
  existsb (Ascii.eqb c) l = false -> rfind_from c l i last = last.
Proof.
  revert i. induction l as [|a l IH]; intros i; simpl; [reflexivity|].
  rewrite orb_false_iff. intros [Ha Hl]. rewrite Ascii.eqb_sym, Ha. apply IH. exact Hl.
Qed.

Lemma has_stem_found (l1 l2 : list ascii) (i from dot : Z) :
  from <= i -> dot = i + Z.of_nat (length l1) ->
  existsb (fun a => negb (Ascii.eqb a ".")) l1 = true ->
  has_stem (l1 ++ l2) i from dot = true.
Proof.
  revert i. induction l1 as [|a l1 IH]; intros i Hfrom Hdot; simpl; [discriminate|].
  destruct (negb (Ascii.eqb a ".")) eqn:Ha; simpl.
  - intros _. apply orb_true_iff. left.
    rewrite andb_true_r, andb_true_iff, Z.leb_le, Z.ltb_lt. simpl length in Hdot. lia.
  - intros Hl1. rewrite andb_false_r. simpl. apply IH; [lia | simpl length in Hdot; lia | exact Hl1].
Qed.

Lemma substring_prefix (s t : string) : String.substring 0 (String.length s) (s +:+ t) = s.
Proof. induction s as [|a s IH]; simpl; [destruct t; reflexivity | rewrite IH; reflexivity]. Qed.

Lemma substring_all (t : string) : String.substring 0 (String.length t) t = t.
Proof. induction t as [|b t IH]; simpl; [reflexivity | rewrite IH; reflexivity]. Qed.

Lemma substring_suffix (s t : string) :
  String.substring (String.length s) (String.length t) (s +:+ t) = t.
Proof. induction s as [|a s IH]; simpl; [apply substring_all | exact IH]. Qed.

Lemma length_app_string (s t : string) :
  String.length (s +:+ t) = (String.length s + String.length t)%nat.
Proof. induction s as [|a s IH]; simpl; [reflexivity | rewrite IH; reflexivity]. Qed.

(** X19: a file name made of a stem and the extension [.csv], where the
    stem holds no [/] and at least one character other than a dot, is
    taken by the loader, under the key that is the stem. *)
Theorem csv_name_key (stem : string) :
  existsb (Ascii.eqb "/") (chars stem) = false ->
  existsb (fun a => negb (Ascii.eqb a ".")) (chars stem) = true ->
  endswith (stem +:+ ".csv") ".csv" = true
  /\ splitext_root (stem +:+ ".csv") = stem.
Proof.
  intros Hsep Hstem. split.
  - unfold endswith. rewrite length_app_string. simpl String.length.
    replace (String.length stem + 4 - 4)%nat with (String.length stem) by lia.
    rewrite (substring_suffix stem ".csv"
             : String.substring (String.length stem) 4 (stem +:+ ".csv") = ".csv"%string).
    apply andb_true_iff. split; [apply Nat.leb_le; lia | reflexivity].
  - unfold splitext_root, rfind. rewrite chars_app, !rfind_from_app.
    rewrite (rfind_from_absent "/" (chars stem)) by exact Hsep.
    cbn [chars String.list_ascii_of_string rfind_from Ascii.eqb Bool.eqb].
    rewrite chars_length.
    assert (Hgt : (0 + Z.of_nat (String.length stem) >? -1) = true)
      by (apply Z.gtb_lt; lia).
    rewrite Hgt, has_stem_found; [| lia | rewrite chars_length; lia | exact Hstem].
    cbn [andb]. rewrite Z.add_0_l, Nat2Z.id. apply substring_prefix.
Qed.

(** ** The loaded tables *)

Lemma load_file_lookup (acc : gmap string DataFrame) (file : string * read_outcome)
    (k : string) (df : DataFrame) :
  load_file acc file !! k = Some df ->
  acc !! k = Some df
  \/ (file.2 = Parsed df /\ endswith file.1 ".csv" = true /\ splitext_root file.1 = k).
Proof.
  unfold load_file. destruct (endswith file.1 ".csv"); [|auto].
  destruct file.2 as [df'| | |]; auto.
  destruct (decide (splitext_root file.1 = k)) as [<-|Hne].
  - rewrite lookup_insert_eq. intros [= <-]. auto.
  - rewrite lookup_insert_ne by exact Hne. auto.
Qed.

Lemma load_file_keeps (acc : gmap string DataFrame) (file : string * read_outcome)
    (k : string) :
  is_Some (acc !! k) -> is_Some (load_file acc file !! k).
Proof.
  unfold load_file. destruct (endswith file.1 ".csv"); [|auto].
  destruct file.2 as [df'| | |]; auto. intros H.
  destruct (decide (splitext_root file.1 = k)) as [<-|Hne].
  - rewrite lookup_insert_eq. eauto.
  - rewrite lookup_insert_ne by exact Hne. exact H.
Qed.

Lemma fold_load_lookup (files : list (string * read_outcome)) (acc : gmap string DataFrame)
    (k : string) (df : DataFrame) :
  fold_left load_file files acc !! k = Some df ->
  acc !! k = Some df
  \/ exists name, In (name, Parsed df) files
                  /\ endswith name ".csv" = true /\ splitext_root name = k.
Proof.
  revert acc. induction files as [|[name o] files IH]; intros acc H; simpl in *; [auto|].
  apply IH in H as [H|(name' & Hin & Hcsv & Hkey)].
  - apply load_file_lookup in H as [H|(Ho & Hcsv & Hkey)]; [auto|]. simpl in *. subst o.
    right. exists name. auto.
  - right. exists name'. auto.
Qed.

Lemma fold_load_keeps (files : list (string * read_outcome)) (acc : gmap string DataFrame)
    (k : string) :
  is_Some (acc !! k) -> is_Some (fold_left load_file files acc !! k).
Proof.
  revert acc. induction files as [|file files IH]; intros acc H; simpl; [exact H|].
  apply IH. apply load_file_keeps. exact H.
Qed.

Lemma fold_load_present (files : list (string * read_outcome)) (acc : gmap string DataFrame)
    (name : string) (df : DataFrame) :
  In (name, Parsed df) files -> endswith name ".csv" = true ->
  is_Some (fold_left load_file files acc !! splitext_root name).
Proof.
  revert acc. induction files as [|file files IH]; intros acc Hin Hcsv; [destruct Hin|].
  simpl. destruct Hin as [->|Hin]; [|apply IH; assumption].
  apply fold_load_keeps. unfold load_file. simpl. rewrite Hcsv, lookup_insert_eq. eauto.
Qed.

Lemma loaded_tables (fs : file_system) (csv_dir : string)
    (files : list (string * read_outcome)) :
  fs csv_dir = Listing files ->
  exists dataframes,
    load_data_from_directory fs csv_dir = Loaded dataframes
    /\ (forall k df, dataframes !! k = Some df ->
          exists name, In (name, Parsed df) files
                       /\ endswith name ".csv" = true /\ splitext_root name = k)
    /\ (forall name df, In (name, Parsed df) files -> endswith name ".csv" = true ->
          is_Some (dataframes !! splitext_root name)).
Proof.
  intros Hfs. unfold load_data_from_directory. rewrite Hfs.
  exists (fold_left load_file files ∅). split; [reflexivity|]. split.
  - intros k df H. apply fold_load_lookup in H as [H|H]; [|exact H].
    rewrite lookup_empty in H. discriminate.
  - intros name df. apply fold_load_present.
Qed.

(** X20: on a directory that can be listed the loader returns a dict
    and raises nothing, whatever the files hold: every table of the
    dict was read from a listed [.csv] file and stands under that
    file's name without extension, and every listed [.csv] file that
    was read has its key in the dict; files that are empty, cannot be
    parsed or fail otherwise are skipped, like files of other names. *)
Theorem load_data_from_directory_tables (fs : file_system) (csv_dir : string)
    (files : list (string * read_outcome)) :
  fs csv_dir = Listing files ->
  exists dataframes,
    load_data_from_directory fs csv_dir = Loaded dataframes
    /\ (forall k df, dataframes !! k = Some df ->
          exists name, In (name, Parsed df) files
                       /\ endswith name ".csv" = true /\ splitext_root name = k)
    /\ (forall name df, In (name, Parsed df) files -> endswith name ".csv" = true ->
          is_Some (dataframes !! splitext_root name)).
Proof. apply loaded_tables. Qed.

(** ** The script *)

Lemma main_missing_table (env : Env) (dataframes : gmap string DataFrame) (name : string) :
  In name required_dataframes -> dataframes !! name = None ->
  List.filter (fun df => bool_decide (dataframes !! df = None)) required_dataframes <> [].
Proof.
  intros Hin Hnone Hempty.
  assert (H : In name (List.filter (fun df => bool_decide (dataframes !! df = None))
                         required_dataframes)).
  { apply filter_In. split; [exact Hin | apply bool_decide_eq_true_2; exact Hnone]. }
  rewrite Hempty in H. destruct H.
Qed.

(** X21: when the data directory can be listed and, for one of the
    seven required names, holds no [.csv] file of that name that could
    be read, the script exits with status 1 and writes nothing: an
    unreadable or unparsable required file counts as missing. *)
Theorem main_exits_without_required_table (env : Env) (fs : file_system)
    (data_dir : string) (files : list (string * read_outcome)) (name : string) :
  fs data_dir = Listing files ->
  In name required_dataframes ->
  (forall file df, In (file, Parsed df) files -> endswith file ".csv" = true ->
                   splitext_root file <> name) ->
  main env fs data_dir = {| saved := None; ended := SystemExit 1 |}.
Proof.
  intros Hfs Hin Habsent.
  destruct (loaded_tables fs data_dir files Hfs) as (dataframes & Hload & Hsound & _).
  unfold main. rewrite Hload.
  assert (Hnone : dataframes !! name = None).
  { destruct (dataframes !! name) as [df|] eqn:Hk; [|reflexivity].
    destruct (Hsound name df Hk) as (file & Hfile & Hcsv & Hkey).
    exfalso. exact (Habsent file df Hfile Hcsv Hkey). }
  pose proof (main_missing_table env dataframes name Hin Hnone) as Hmissing.
  destruct (List.filter _ required_dataframes); [contradiction | reflexivity].
Qed.

(** X22: when the seven tables are loaded and the operation table has
    no row, the script writes an empty table and then fails with
    [KeyError]: the summary reads a column that the empty result does
    not have. *)
Theorem main_without_operations (env : Env) (fs : file_system) (data_dir : string)
    (dataframes : gmap string DataFrame) (operation_data : DataFrame) :
  load_data_from_directory fs data_dir = Loaded dataframes ->
  Forall (fun name => is_Some (dataframes !! name)) required_dataframes ->
  dataframes !! "operation_data_test_2" = Some operation_data ->
  rows operation_data = [] ->
  main env fs data_dir = {| saved := Some []; ended := Failure KeyError |}.
Proof.
  intros Hload Hall Hop Hrows. unfold main. rewrite Hload.
  assert (Hmissing : List.filter (fun df => bool_decide (dataframes !! df = None))
                       required_dataframes = []).
  { unfold required_dataframes in *.
    repeat (apply Forall_cons in Hall as [[? ?] Hall]).
    simpl.
    repeat match goal with
           | H : dataframes !! _ = Some _ |- _ => rewrite H; clear H
           end.
    reflexivity. }
  rewrite Hmissing.
  unfold required_dataframes in Hall.
  repeat (apply Forall_cons in Hall as [[? ?] Hall]).
  unfold calculate_from, frame.
  rewrite Hop.
  repeat match goal with
         | H : dataframes !! _ = Some _ |- _ => rewrite H; clear H
         end.
  cbn [bind]. unfold calculate_annual_emissions. rewrite Hrows. reflexivity.
Qed.

(** X9: with [output_format='dataframe'], [lookup] returns the empty
    DataFrame on every input, whether rows match or not: the truth test
    of the result raises and the [except] clause answers. *)
Theorem lookup_dataframe_format_empty (df : table_arg) (crit : criteria_arg)
    (output_columns : option (list string)) (fallback_criteria : list criteria) :
  lookup df crit output_columns "dataframe" fallback_criteria = Ok (Frame empty_frame).
Proof.
  destruct (lookup_try df crit output_columns "dataframe" fallback_criteria)
    as [result|e] eqn:H.
  - unfold lookup_try in H. apply bind_Ok in H as (r & Hr & H).
    apply perform_lookup_dataframe in Hr as [out ->]. discriminate H.
  - exact (lookup_catches _ _ _ _ _ _ H).
Qed.

(** * The further properties at the sample data *)



Lemma lookup_unknown_output_column_witness :
  In "zzz"%string ["b"; "zzz"]%string
  /\ has_column two_rows "zzz" = false
  /\ lookup (IsDataFrame two_rows) (IsDict [("a", Scalar (Num (Int 1)))])
       (Some ["b"; "zzz"]) dictionary_list []
     = Ok (DictList []).
Proof.
  assert (Hin : In "zzz"%string ["b"; "zzz"]%string) by (simpl; tauto).
  split; [exact Hin|]. split; [reflexivity|].
  exact (lookup_unknown_output_column two_rows _ _ "zzz" [] Hin eq_refl).
Defined.

Lemma lookup_unknown_format_witness :
  "json"%string <> "dataframe"%string
  /\ "json"%string <> dictionary_list
  /\ lookup (IsDataFrame two_rows) (IsDict [("a", Scalar (Num (Int 1)))]) None "json" []
     = Ok (DictList []).
Proof.
  assert (H1 : "json"%string <> "dataframe"%string) by discriminate.
  assert (H2 : "json"%string <> dictionary_list) by discriminate.
  split; [exact H1|]. split; [exact H2|].
  exact (lookup_unknown_format _ _ _ "json" [] H1 H2).
Defined.


Lemma dict_update_get_witness :
  NoDup (keys overlay_bx)
  /\ dict_get (dict_update a1_by overlay_bx) "b" = Some (Scalar (Str "x"))
  /\ dict_get (dict_update a1_by overlay_bx) "a" = Some (Scalar (Num (Int 1))).
Proof.
  assert (Hu : NoDup (keys overlay_bx)) by (apply NoDup_singleton).
  split; [exact Hu|].
  split; rewrite (proj1 (dict_update_get a1_by overlay_bx Hu)); reflexivity.
Defined.

Lemma lookup_criteria_order_witness :
  NoDup (keys [("a", Scalar (Num (Int 2))); ("b", Scalar (Str "y"))])
  /\ [("a", Scalar (Num (Int 2))); ("b", Scalar (Str "y"))]
     ≡ₚ [("b", Scalar (Str "y")); ("a", Scalar (Num (Int 2)))]
  /\ lookup (IsDataFrame two_rows)
       (IsDict [("a", Scalar (Num (Int 2))); ("b", Scalar (Str "y"))]) None
       dictionary_list []
     = lookup (IsDataFrame two_rows)
         (IsDict [("b", Scalar (Str "y")); ("a", Scalar (Num (Int 2)))]) None
         dictionary_list [].
Proof.
  assert (Hd : NoDup (keys [("a", Scalar (Num (Int 2))); ("b", Scalar (Str "y"))])).
  { apply NoDup_cons. split; [|apply NoDup_singleton].
    intros H. apply list_elem_of_singleton in H. discriminate. }
  assert (Hp : [("a", Scalar (Num (Int 2))); ("b", Scalar (Str "y"))]
               ≡ₚ [("b", Scalar (Str "y")); ("a", Scalar (Num (Int 2)))])
    by (apply perm_swap).
  split; [exact Hd|]. split; [exact Hp|].
  exact (lookup_criteria_order _ _ _ None dictionary_list [] Hd Hp).
Defined.


Lemma factor_of_unusable_table_witness :
  has_column empty_frame "subcategory" = false
  /\ lookup_emission_per_unit cattle_operation cattle_row empty_frame "livestock_type"
     = Ok zero.
Proof.
  split; [reflexivity|].
  exact (proj2 (proj2 (factor_of_unusable_table cattle_operation cattle_row empty_frame
                         empty_frame empty_frame))
           (or_introl eq_refl) "livestock_type"%string eq_refl).
Defined.





Lemma stage1_returns_witness :
  Forall (fun c => has_column cattle_operation c = true) stage1_fields
  /\ exists s,
       stage1 env_2024 cattle_operation cattle_row empty_frame empty_frame empty_frame
         empty_frame empty_frame unnumbered_farm = Ok s.
Proof.
  assert (Hfields : Forall (fun c => has_column cattle_operation c = true) stage1_fields)
    by (repeat constructor).
  split; [exact Hfields|].
  exact (stage1_returns env_2024 cattle_operation cattle_row empty_frame empty_frame
           empty_frame empty_frame empty_frame unnumbered_farm Hfields).
Defined.


Lemma missing_field_raises_witness :
  In "livestock_count"%string (stage1_fields ++ numeric_fields)
  /\ has_column bare_operation "livestock_count" = false
  /\ rows bare_operation <> []
  /\ calculate_annual_emissions env_2024 bare_operation no_fuel no_gwp no_refrigerator
       no_vehicle no_tru cattle_farm = Raise KeyError.
Proof.
  assert (Hin : In "livestock_count"%string (stage1_fields ++ numeric_fields))
    by (simpl; tauto).
  assert (Hrows : rows bare_operation <> []) by discriminate.
  split; [exact Hin|]. split; [reflexivity|]. split; [exact Hrows|].
  exact (missing_field_raises env_2024 bare_operation no_fuel no_gwp no_refrigerator
           no_vehicle no_tru cattle_farm "livestock_count" Hin eq_refl Hrows).
Defined.

Lemma csv_name_key_witness :
  existsb (Ascii.eqb "/") (chars "fuel_data") = false
  /\ existsb (fun a => negb (Ascii.eqb a ".")) (chars "fuel_data") = true
  /\ endswith "fuel_data.csv" ".csv" = true
  /\ splitext_root "fuel_data.csv" = "fuel_data"%string.
Proof.
  split; [reflexivity|]. split; [reflexivity|].
  exact (csv_name_key "fuel_data" eq_refl eq_refl).
Defined.

Lemma load_data_from_directory_tables_witness :
  exists dataframes,
    load_data_from_directory partial_directory "data/raw" = Loaded dataframes
    /\ (forall k df, dataframes !! k = Some df ->
          exists name,
            In (name, Parsed df)
              [("fuel_data.csv", Parsed diesel_fuel); ("farm_emissions.csv", ParserError);
               ("notes.txt", OtherException)]
            /\ endswith name ".csv" = true /\ splitext_root name = k)
    /\ (forall name df,
          In (name, Parsed df)
            [("fuel_data.csv", Parsed diesel_fuel); ("farm_emissions.csv", ParserError);
             ("notes.txt", OtherException)] ->
          endswith name ".csv" = true ->
          is_Some (dataframes !! splitext_root name)).
Proof.
  exact (load_data_from_directory_tables partial_directory "data/raw" _ eq_refl).
Defined.

Lemma main_exits_without_required_table_witness :
  In "farm_emissions"%string required_dataframes
  /\ main env_2024 partial_directory "data/raw" = {| saved := None; ended := SystemExit 1 |}.
Proof.
  assert (Hin : In "farm_emissions"%string required_dataframes) by (simpl; tauto).
  split; [exact Hin|].
  apply (main_exits_without_required_table env_2024 partial_directory "data/raw" _
           "farm_emissions" eq_refl Hin).
  intros file df [H|[H|[H|[]]]] _; inversion H; subst; discriminate.
Defined.

Lemma main_without_operations_witness :
  load_data_from_directory idle_directory "data/raw" = Loaded idle_tables
  /\ main env_2024 idle_directory "data/raw"
     = {| saved := Some []; ended := Failure KeyError |}.
Proof.
  assert (Hload : load_data_from_directory idle_directory "data/raw" = Loaded idle_tables)
    by (vm_compute; reflexivity).
  split; [exact Hload|].
  apply (main_without_operations env_2024 idle_directory "data/raw" idle_tables
           (no_rows operation_columns) Hload).
  - repeat constructor; vm_compute; eauto.
  - vm_compute. reflexivity.
  - reflexivity.
Defined.
